(** * camunda-mcp: the CDD scenario responder and its next-step follower

    A shallow embedding of [mcp-cdd/state_street_cdd.py] (the scenario
    responder) and of [follow_next_steps] in [mcp-cdd/example_client.py]
    (the next-step follower), with the properties the specification states
    about them.

    Python values are modelled as JSON documents, Python exceptions as a
    class name with a message, and the follower's console output together
    with its tool calls as a trace of events. *)

From Stdlib Require Import Bool List String Ascii ZArith Lia.
From Stdlib Require Import PrimFloat FloatOps SpecFloat Uint63.
Import ListNotations.

Open Scope string_scope.
Open Scope Z_scope.

(** ** Python values, exceptions and the operations the two files use *)

Module Py.

(** JSON-compatible values.  A [VObj] is a Python dict: an association list in
    insertion order, read and written through [dict_get] and [dict_set], which
    keep its keys unique. *)
#[local] Set Warnings "-register-all".

Inductive value : Type :=
| VNull
| VBool (b : bool)
| VNum (n : Z)
| VStr (s : string)
| VArr (items : list value)
| VObj (fields : list (string * value)).

Definition dict := list (string * value).

(** An instance of a subclass of [Exception]: its class and its message. *)
Inductive exn : Type :=
| Exn (cls : string) (msg : string).

(** The outcome of evaluating a Python expression: a value or a raised
    exception. *)
Inductive py (A : Type) : Type :=
| Ret (a : A)
| Raise (e : exn).

Arguments Ret {A} a.
Arguments Raise {A} e.

Definition bind {A B : Type} (m : py A) (k : A -> py B) : py B :=
  match m with
  | Ret a => k a
  | Raise e => Raise e
  end.

Notation "x <- m ;; k" := (bind m (fun x => k))
  (at level 61, m at next level, right associativity).

(** [bool(v)] *)
Definition truthy (v : value) : bool :=
  match v with
  | VNull => false
  | VBool b => b
  | VNum n => negb (n =? 0)
  | VStr s => negb (s =? "")%string
  | VArr items => match items with [] => false | _ :: _ => true end
  | VObj fields => match fields with [] => false | _ :: _ => true end
  end.

(** [type(v).__name__] *)
Definition type_name (v : value) : string :=
  match v with
  | VNull => "NoneType"
  | VBool _ => "bool"
  | VNum _ => "int"
  | VStr _ => "str"
  | VArr _ => "list"
  | VObj _ => "dict"
  end.

(** *** Dictionaries *)

(** [d.get(k)] *)
Fixpoint dict_get (k : string) (d : dict) : option value :=
  match d with
  | [] => None
  | (k', v) :: rest => if (k' =? k)%string then Some v else dict_get k rest
  end.

(** [k in d] *)
Definition dict_has (k : string) (d : dict) : bool :=
  match dict_get k d with
  | Some _ => true
  | None => false
  end.

(** [d[k] = v]: an existing key keeps its place, a new key goes last. *)
Fixpoint dict_set (k : string) (v : value) (d : dict) : dict :=
  match d with
  | [] => [(k, v)]
  | (k', v') :: rest =>
      if (k' =? k)%string then (k', v) :: rest else (k', v') :: dict_set k v rest
  end.

(** [d.update(u)] *)
Definition dict_update (d u : dict) : dict :=
  fold_left (fun acc kv => dict_set (fst kv) (snd kv) acc) u d.

(** *** Strings *)

Definition is_upper (c : ascii) : bool :=
  let n := nat_of_ascii c in (65 <=? n)%nat && (n <=? 90)%nat.

Definition lower_char (c : ascii) : ascii :=
  if is_upper c then ascii_of_nat (nat_of_ascii c + 32) else c.

(** [s.lower()].  Identifiers are byte strings here and only the letters A-Z
    change; Python's lowering of the remaining code points neither produces
    nor removes an ASCII letter. *)
Fixpoint lower (s : string) : string :=
  match s with
  | EmptyString => EmptyString
  | String c rest => String (lower_char c) (lower rest)
  end.

(** [sub in s] on strings. *)
Fixpoint str_in (sub s : string) : bool :=
  String.prefix sub s ||
  match s with
  | EmptyString => false
  | String _ rest => str_in sub rest
  end.

(** The characters of a string, each as a one-character string (what
    iterating over a [str] yields). *)
Fixpoint chars (s : string) : list string :=
  match s with
  | EmptyString => []
  | String c rest => String c EmptyString :: chars rest
  end.

(** *** Floating point *)

(** [float(n)] for an integer in the range of a machine word. *)
Definition float_of_int (n : Z) : float := PrimFloat.of_uint63 (Uint63.of_Z n).

(** [int(f)]: truncation toward zero of a finite double. *)
Definition int_of_float (f : float) : Z :=
  match Prim2SF f with
  | S754_finite sign m e =>
      let magnitude :=
        if 0 <=? e then Z.pos m * 2 ^ e else Z.pos m / 2 ^ (- e) in
      if sign then - magnitude else magnitude
  | S754_zero _ => 0
  | S754_infinity _ => 0
  | S754_nan => 0
  end.

End Py.

Export Py.

(** ** The scenario responder: [mcp-cdd/state_street_cdd.py] *)

Module state_street_cdd.

(** [customer_id.lower()]: only a [str] has the method. *)
Definition py_lower (customer_id : value) : py string :=
  match customer_id with
  | VStr s => Ret (lower s)
  | other =>
      Raise (Exn "AttributeError"
               ("'" ++ type_name other ++ "' object has no attribute 'lower'"))
  end.

Definition _infer_scenario_for_customer (customer_id : value) : py string :=
  if negb (truthy customer_id) then Ret "positive"
  else
    s <- py_lower customer_id ;;
    if str_in "neg" s || str_in "negative" s then Ret "negative"
    else if str_in "pos" s || str_in "positive" s then Ret "positive"
    else Ret "positive".

(** How [customer_id] prints inside an f-string.  The responders build their
    answer only for a [str] and for the falsy values, which are the ones
    listed; for any other value [_infer_scenario_for_customer] has raised. *)
Definition format_customer_id (customer_id : value) : string :=
  match customer_id with
  | VStr s => s
  | VNull => "None"
  | VBool false => "False"
  | VBool true => "True"
  | VNum 0 => "0"
  | VArr [] => "[]"
  | VObj [] => "{}"
  | _ => ""
  end.

(** A [next_steps] entry [{"tool": name, "params": {"customer_id": customer_id}}]. *)
Definition tool_step (name : string) (customer_id : value) : value :=
  VObj [("tool", VStr name); ("params", VObj [("customer_id", customer_id)])].

Definition get_customer_profile (customer_id : value) : py value :=
  let base : dict :=
    [("customer_id", customer_id);
     ("name", VStr "ACME Corp");
     ("country", VStr "US");
     ("incorporation_date", VStr "2010-07-16");
     ("industry", VStr "Financial Services");
     ("contacts",
      VArr [VObj [("name", VStr "Jane Doe");
                  ("role", VStr "Compliance Officer");
                  ("email", VStr "jane.doe@example.com")]])] in
  scenario <- _infer_scenario_for_customer customer_id ;;
  let base :=
    if (scenario =? "negative")%string then
      dict_update base
        [("status", VStr "under_review");
         ("risk_profile", VStr "high");
         ("notes",
          VStr "Potential sanctions exposure and anomalous transactions detected")]
    else
      dict_update base
        [("status", VStr "active");
         ("risk_profile", VStr "low");
         ("notes", VStr "Customer in good standing")] in
  let base :=
    if (scenario =? "negative")%string then
      dict_set "next_steps"
        (VArr [VStr "Collect additional KYC";
               VStr "Enhanced monitoring";
               VStr "Escalate to AML officer";
               tool_step "get_risk_score" customer_id;
               tool_step "generate_compliance_report" customer_id]) base
    else
      dict_set "next_steps"
        (VArr [VStr "Standard monitoring";
               VStr "Periodic review in 12 months";
               tool_step "get_risk_score" customer_id;
               tool_step "generate_compliance_report" customer_id]) base in
  Ret (VObj base).

(** [baseline["factors"]] *)
Definition factors : list (string * Z) :=
  [("sanctions", 5); ("geo_risk", 12); ("industry_risk", 20);
   ("transaction_pattern", 35)].

(** [sum(baseline["factors"].values())] *)
Definition sum_factors : Z := fold_right Z.add 0 (map snd factors).

(** The doubles Python reads from the literals [2.0] and [0.3]. *)
Definition two : float := 0x1p+1%float.
Definition three_tenths : float := 0x1.3333333333333p-2%float.

Definition get_risk_score (customer_id : value) : py value :=
  let baseline : dict :=
    [("customer_id", customer_id);
     ("scale", VStr "0-100");
     ("factors", VObj (map (fun kn => (fst kn, VNum (snd kn))) factors))] in
  scenario <- _infer_scenario_for_customer customer_id ;;
  if (scenario =? "negative")%string then
    let score := int_of_float (PrimFloat.mul (float_of_int sum_factors) two) in
    Ret (VObj (dict_update baseline
      [("score", VNum (Z.min 100 score));
       ("interpretation", VStr "High risk");
       ("recommendation",
        VArr [VStr "Immediate enhanced due diligence";
              VStr "Transaction restrictions until cleared"]);
       ("next_steps",
        VArr [VStr "Freeze suspicious accounts";
              VStr "Collect source-of-funds evidence";
              VStr "Notify AML team";
              tool_step "explain_risk" customer_id;
              tool_step "generate_compliance_report" customer_id])]))
  else
    let score :=
      Z.max 0 (int_of_float (PrimFloat.mul (float_of_int sum_factors) three_tenths)) in
    Ret (VObj (dict_update baseline
      [("score", VNum score);
       ("interpretation",
        VStr (if score <? 30 then "Low risk" else "Moderate risk"));
       ("recommendation",
        if score <? 30 then VArr [VStr "Standard monitoring"]
        else VArr [VStr "Enhanced monitoring"]);
       ("next_steps",
        VArr [VStr (if score <? 30 then "Routine checks"
                    else "Request a brief KYC update");
              tool_step "explain_risk" customer_id;
              tool_step "generate_compliance_report" customer_id])])).

Definition explain_risk (customer_id : value) : py value :=
  scenario <- _infer_scenario_for_customer customer_id ;;
  if (scenario =? "negative")%string then
    Ret (VObj
      [("customer_id", customer_id);
       ("explanation",
        VStr "High risk indicators: suspicious transaction patterns, exposure to higher-risk geographies, and possible name matches in screening results.");
       ("recommendation",
        VArr [VStr "Immediate enhanced due diligence";
              VStr "Temporary transaction restrictions";
              VStr "Collect and verify source-of-funds and beneficial ownership documentation"]);
       ("next_steps",
        VArr [VStr "Escalate to AML officer";
              VStr "Open investigation ticket";
              VStr "Contact counterparty banks if required";
              tool_step "generate_compliance_report" customer_id])])
  else
    Ret (VObj
      [("customer_id", customer_id);
       ("explanation",
        VStr "Low risk profile: strong KYC, low geolocation exposure, and normal transaction patterns.");
       ("recommendation", VArr [VStr "Standard monitoring"; VStr "Annual re-check"]);
       ("next_steps",
        VArr [VStr "Continue normal monitoring";
              VStr "Re-run scoring yearly";
              tool_step "generate_compliance_report" customer_id])]).

Definition generate_compliance_report (customer_id : value) : py value :=
  let report : dict :=
    [("customer_id", customer_id);
     ("report_id", VStr ("RPT-" ++ format_customer_id customer_id ++ "-001"));
     ("generated_at", VStr "2025-11-29T12:00:00Z")] in
  scenario <- _infer_scenario_for_customer customer_id ;;
  if (scenario =? "negative")%string then
    let report :=
      dict_set "summary"
        (VObj [("kyc_verified", VBool false);
               ("aml_checks_passed", VBool false);
               ("open_issues",
                VArr [VObj [("id", VStr "ISS-01");
                            ("description",
                             VStr "Multiple high-value transfers to flagged jurisdictions")];
                      VObj [("id", VStr "ISS-02");
                            ("description",
                             VStr "Possible mismatch in beneficial owner documentation")]])])
        report in
    Ret (VObj (dict_set "next_steps"
      (VArr [VStr "Freeze account pending investigation";
             VStr "Collect source-of-funds evidence";
             VStr "Escalate to AML officer and file internal incident"]) report))
  else
    let report :=
      dict_set "summary"
        (VObj [("kyc_verified", VBool true);
               ("aml_checks_passed", VBool true);
               ("open_issues", VArr [])])
        report in
    Ret (VObj (dict_set "next_steps"
      (VArr [VStr "Archive check results";
             VStr "Re-evaluate in 12 months"]) report)).

End state_street_cdd.

Export state_street_cdd.

(** ** The next-step follower: [mcp-cdd/example_client.py] *)

Module example_client.

(** What the follower does that the outside can observe: the lines it prints
    and the tools it calls, in order. *)
Inductive event : Type :=
| PrintMaxDepth (_depth : Z)
| PrintUnknownTool (tool_name : value)
| PrintFollowing (tool_name : value) (params : value) (next_depth : Z)
| CallTool (tool_name : value) (kwargs : dict)
| PrintResult (tool_name : value) (resp : value)
| PrintError (tool_name : value) (e : exn)
| PrintHuman (step : value).

(** How a call of the follower ends.  [OutOfFuel] belongs to the model only:
    it marks a run cut short by the recursion budget of [follow_fuel]. *)
Inductive outcome : Type :=
| Returned
| Raised (e : exn)
| OutOfFuel.

(** A run of the follower on [result]: the events, the object [result] as the
    run leaves it (the follower writes into the dicts it is given), and how
    the run ended. *)
Record run : Type := mkRun {
  trace : list event;
  store : value;
  status : outcome
}.

(** A run of the loop over the entries: the events, the entries as the loop
    leaves them, and how it ended. *)
Record loop : Type := mkLoop {
  ltrace : list event;
  lsteps : list value;
  lstatus : outcome
}.

(** A registered tool as [_call_tool] sees it: called with keyword arguments,
    awaited, and either answering or raising. *)
Definition tool := dict -> py value.

Definition registry := string -> option tool.

(** The call of a responder with keyword arguments: it takes [customer_id]
    and nothing else. *)
Definition call_with_customer_id (func : value -> py value) : tool :=
  fun kwargs =>
    match kwargs with
    | [(k, customer_id)] =>
        if (k =? "customer_id")%string then func customer_id
        else Raise (Exn "TypeError" ("got an unexpected keyword argument '" ++ k ++ "'"))
    | [] =>
        Raise (Exn "TypeError" "missing 1 required positional argument: 'customer_id'")
    | _ :: _ :: _ =>
        Raise (Exn "TypeError" "got an unexpected keyword argument")
    end.

(** The [tool_map] that [follow_next_steps] builds. *)
Definition tool_map : registry :=
  fun tool_name =>
    if (tool_name =? "get_customer_profile")%string then
      Some (call_with_customer_id get_customer_profile)
    else if (tool_name =? "get_risk_score")%string then
      Some (call_with_customer_id get_risk_score)
    else if (tool_name =? "explain_risk")%string then
      Some (call_with_customer_id explain_risk)
    else if (tool_name =? "generate_compliance_report")%string then
      Some (call_with_customer_id generate_compliance_report)
    else None.

(** [step.get("params", {})] *)
Definition step_params (step : dict) : value :=
  match dict_get "params" step with
  | Some params => params
  | None => VObj []
  end.

(** [k not in container] *)
Definition py_not_in (k : string) (container : value) : py bool :=
  match container with
  | VObj fields => Ret (negb (dict_has k fields))
  | VArr items =>
      Ret (negb (existsb (fun item =>
                   match item with
                   | VStr s => (s =? k)%string
                   | _ => false
                   end) items))
  | VStr s => Ret (negb (str_in k s))
  | other =>
      Raise (Exn "TypeError"
               ("argument of type '" ++ type_name other ++ "' is not iterable"))
  end.

(** [container[k] = v] *)
Definition py_setitem (container : value) (k : string) (v : value) : py value :=
  match container with
  | VObj fields => Ret (VObj (dict_set k v fields))
  | VArr _ =>
      Raise (Exn "TypeError" "list indices must be integers or slices, not str")
  | other =>
      Raise (Exn "TypeError"
               ("'" ++ type_name other ++ "' object does not support item assignment"))
  end.

(** Lines 106-107: the parent's [customer_id] goes into [params] when
    [params] has none.  The answer is the object [params] after the
    assignment. *)
Definition inject_customer_id (result : dict) (params : value) : py value :=
  absent <- py_not_in "customer_id" params ;;
  if absent && dict_has "customer_id" result then
    match dict_get "customer_id" result with
    | Some customer_id => py_setitem params "customer_id" customer_id
    | None => Ret params
    end
  else Ret params.

(** [tool_map.get(tool_name)]: a list or a dict cannot be hashed; a number is
    no key of a map from names. *)
Definition registry_get (tools : registry) (tool_name : value) : py (option tool) :=
  match tool_name with
  | VStr name => Ret (tools name)
  | VArr _ | VObj _ =>
      Raise (Exn "TypeError" ("unhashable type: '" ++ type_name tool_name ++ "'"))
  | _ => Ret None
  end.

(** [for step in steps]: what iterating over the value yields. *)
Definition py_iter (steps : value) : py (list value) :=
  match steps with
  | VArr items => Ret items
  | VStr s => Ret (map VStr (chars s))
  | VObj fields => Ret (map (fun kv => VStr (fst kv)) fields)
  | other =>
      Raise (Exn "TypeError" ("'" ++ type_name other ++ "' object is not iterable"))
  end.

(** The report of an exception caught by the [except] clause, if any. *)
Definition caught (tool_name : value) (o : outcome) : list event :=
  match o with
  | Raised e => [PrintError tool_name e]
  | _ => []
  end.

(** How the [try] statement ends when its body ended with [o]. *)
Definition after_try (o : outcome) : outcome :=
  match o with
  | OutOfFuel => OutOfFuel
  | _ => Returned
  end.

(** Line 116 is [await _call_tool(func, ...)] with the entries of [params]
    as keywords, and [tool] is the name of the first parameter of
    [_call_tool]: a keyword of that name cannot be bound, and the call
    raises before [_call_tool] is entered. *)
Definition keyword_clash : exn :=
  Exn "TypeError" "_call_tool() got multiple values for argument 'tool'".

Section Follower.

(** The registry the follower resolves tool names in, and the follower itself
    one level down ([rec resp] is
    [follow_next_steps(resp, max_depth=max_depth, _depth=_depth + 1)]). *)
Variable tools : registry.
Variable rec : value -> run.

(** The [if] branch of the loop body, lines 103-121, for the entry [step]
    whose ["tool"] is [tool_name].  [func kwargs] is what [_call_tool] does
    with the registered object once the keywords are bound. *)
Definition invoke_step (result : dict) (_depth : Z) (step : dict)
    (tool_name : value) : run :=
  match inject_customer_id result (step_params step) with
  | Raise e => mkRun [] (VObj step) (Raised e)
  | Ret params =>
      let step' :=
        VObj (if dict_has "params" step then dict_set "params" params step
              else step) in
      match registry_get tools tool_name with
      | Raise e => mkRun [] step' (Raised e)
      | Ret None => mkRun [PrintUnknownTool tool_name] step' Returned
      | Ret (Some func) =>
          let following := PrintFollowing tool_name params (_depth + 1) in
          match params with
          | VObj kwargs =>
              if dict_has "tool" kwargs then
                mkRun [following; PrintError tool_name keyword_clash]
                      step' Returned
              else
                match func kwargs with
                | Ret resp =>
                    let sub := rec resp in
                    mkRun ([following; CallTool tool_name kwargs;
                            PrintResult tool_name resp]
                           ++ trace sub ++ caught tool_name (status sub))
                          step' (after_try (status sub))
                | Raise e =>
                    mkRun [following; CallTool tool_name kwargs;
                           PrintError tool_name e]
                          step' Returned
                end
          | other =>
              mkRun [following;
                     PrintError tool_name
                       (Exn "TypeError"
                          ("argument after ** must be a mapping, not "
                           ++ type_name other))]
                    step' Returned
          end
      end
  end.

(** The loop body, lines 102-125. *)
Definition process_step (result : dict) (_depth : Z) (step : value) : run :=
  match step with
  | VObj fields =>
      match dict_get "tool" fields with
      | Some tool_name =>
          if truthy tool_name then invoke_step result _depth fields tool_name
          else mkRun [PrintHuman step] step Returned
      | None => mkRun [PrintHuman step] step Returned
      end
  | _ => mkRun [PrintHuman step] step Returned
  end.

(** The loop, line 101: entries in order, until one lets an exception out. *)
Fixpoint run_steps (result : dict) (_depth : Z) (steps : list value) : loop :=
  match steps with
  | [] => mkLoop [] [] Returned
  | step :: rest =>
      let first := process_step result _depth step in
      match status first with
      | Returned =>
          let others := run_steps result _depth rest in
          mkLoop (trace first ++ ltrace others)
                 (store first :: lsteps others)
                 (lstatus others)
      | stopped => mkLoop (trace first) (store first :: rest) stopped
      end
  end.

(** Lines 90-125: the follower below the depth guard. *)
Definition follow_body (result : value) (_depth : Z) : run :=
  match result with
  | VObj fields =>
      let steps :=
        match dict_get "next_steps" fields with
        | Some v => if truthy v then v else VArr []
        | None => VArr []
        end in
      if negb (truthy steps) then mkRun [] result Returned
      else
        match steps with
        | VArr items =>
            let l := run_steps fields _depth items in
            mkRun (ltrace l)
                  (VObj (dict_set "next_steps" (VArr (lsteps l)) fields))
                  (lstatus l)
        | other =>
            match py_iter other with
            | Ret items =>
                let l := run_steps fields _depth items in
                mkRun (ltrace l) result (lstatus l)
            | Raise e => mkRun [] result (Raised e)
            end
        end
  | other =>
      mkRun [] result
        (Raised (Exn "AttributeError"
                   ("'" ++ type_name other ++ "' object has no attribute 'get'")))
  end.

End Follower.

(** [follow_next_steps] over a registry, with a budget of nested calls. *)
Fixpoint follow_fuel (tools : registry) (fuel : nat) (result : value)
    (max_depth _depth : Z) : run :=
  if max_depth <=? _depth then mkRun [PrintMaxDepth _depth] result Returned
  else
    match fuel with
    | O => mkRun [] result OutOfFuel
    | S fuel' =>
        follow_body tools
          (fun resp => follow_fuel tools fuel' resp max_depth (_depth + 1))
          result _depth
    end.

(** The follower over a registry: the budget is the number of levels the
    depth guard leaves. *)
Definition follow (tools : registry) (result : value) (max_depth _depth : Z) : run :=
  follow_fuel tools (Z.to_nat (max_depth - _depth)) result max_depth _depth.

Definition follow_next_steps (result : value) (max_depth _depth : Z) : run :=
  follow tool_map result max_depth _depth.

(** The loop of [follow] at depth [_depth]. *)
Definition follow_steps (tools : registry) (max_depth _depth : Z)
    (result : dict) (steps : list value) : loop :=
  run_steps tools (fun resp => follow tools resp max_depth (_depth + 1))
    result _depth steps.

(** The number of tool calls in a trace. *)
Fixpoint tool_calls (t : list event) : nat :=
  match t with
  | [] => O
  | CallTool _ _ :: rest => S (tool_calls rest)
  | _ :: rest => tool_calls rest
  end.

(** The entries the loop iterates over: [result.get("next_steps") or []],
    and none when [result] is not a dict or the value cannot be iterated. *)
Definition next_steps (result : value) : list value :=
  match result with
  | VObj fields =>
      match dict_get "next_steps" fields with
      | Some v =>
          if truthy v then
            match py_iter v with
            | Ret items => items
            | Raise _ => []
            end
          else []
      | None => []
      end
  | _ => []
  end.

(** [b + b^2 + ... + b^n] *)
Fixpoint geometric (b n : nat) : nat :=
  match n with
  | O => O
  | S n' => (b + b * geometric b n')%nat
  end.

End example_client.

Export example_client.

(** ** Vocabulary of the specification *)

(** [upper_char c] is the capital of a small letter, and [c] otherwise. *)
Definition upper_char (c : ascii) : ascii :=
  let n := nat_of_ascii c in
  if (97 <=? n)%nat && (n <=? 122)%nat then ascii_of_nat (n - 32) else c.

(** [any_case w t]: [t] spells the word [w] with each letter in either case. *)
Inductive any_case : string -> string -> Prop :=
| any_case_nil : any_case "" ""
| any_case_same c w t :
    any_case w t -> any_case (String c w) (String c t)
| any_case_upper c w t :
    any_case w t -> any_case (String c w) (String (upper_char c) t).

(** The identifier contains the word, in any case. *)
Definition contains_any_case (w id : string) : Prop :=
  exists pre t suf, any_case w t /\ id = (pre ++ t ++ suf)%string.

(** [result.get(k)] on a value that is a dict. *)
Definition field (k : string) (result : value) : option value :=
  match result with
  | VObj fields => dict_get k fields
  | _ => None
  end.

(** The answer of [get_risk_score] carries the fields [score] and
    [interpretation] with these values. *)
Definition scored (answer : py value) (score : Z) (interpretation : string) : Prop :=
  exists result,
    answer = Ret result /\
    field "score" result = Some (VNum score) /\
    field "interpretation" result = Some (VStr interpretation).

(** The answer is a dict that echoes [customer_id] and has entries in
    [next_steps]. *)
Definition echoes_and_continues (customer_id : value) (answer : py value) : Prop :=
  exists fields steps,
    answer = Ret (VObj fields) /\
    dict_get "customer_id" fields = Some customer_id /\
    dict_get "next_steps" fields = Some (VArr steps) /\
    steps <> [].

(** The four operations of the scenario responder. *)
Definition responder_operations : list (value -> py value) :=
  [get_customer_profile; get_risk_score; explain_risk; generate_compliance_report].

(** An entry the follower takes for a tool invocation: a dict whose ["tool"]
    is the non-empty name [name], with [params] a dict (or left out). *)
Definition tool_invocation (step : value) (name : string) (params : dict) : Prop :=
  exists fields,
    step = VObj fields /\
    dict_get "tool" fields = Some (VStr name) /\
    name <> "" /\
    step_params fields = VObj params.

(** What the follower may have done to one entry of [next_steps] of a result
    whose [customer_id] is [parent]: nothing, or the entry's [params] dict,
    which had no [customer_id], received the parent's. *)
Definition entry_frame (parent : option value) (before after : value) : Prop :=
  after = before \/
  exists fields params customer_id,
    before = VObj fields /\
    dict_get "params" fields = Some (VObj params) /\
    dict_has "customer_id" params = false /\
    parent = Some customer_id /\
    after = VObj (dict_set "params"
                    (VObj (dict_set "customer_id" customer_id params)) fields).

(** Every answer of every registered tool has at most [b] entries to follow. *)
Definition branching_at_most (tools : registry) (b : nat) : Prop :=
  forall name func kwargs resp,
    tools name = Some func -> func kwargs = Ret resp ->
    (List.length (next_steps resp) <= b)%nat.

(** A registry whose only tool answers with a step that calls it again. *)
Definition loop_answer : value :=
  VObj [("customer_id", VStr "C1");
        ("next_steps", VArr [VObj [("tool", VStr "loop"); ("params", VObj [])]])].

Definition looping_tools : registry :=
  fun name => if (name =? "loop")%string then Some (fun _ => Ret loop_answer) else None.

(** A registry with a tool [X] that answers with an empty document and a
    tool [broken] that raises. *)
Definition sample_tools : registry :=
  fun name =>
    if (name =? "X")%string then Some (fun _ => Ret (VObj []))
    else if (name =? "broken")%string then
      Some (fun _ => Raise (Exn "RuntimeError" "boom"))
    else None.

(** The keyword arguments a tool invocation ends up with: its [params], with
    the parent's [customer_id] when they have none and the parent has one. *)
Definition effective_kwargs (result params : dict) : dict :=
  if dict_has "customer_id" params then params
  else
    match dict_get "customer_id" result with
    | Some customer_id => dict_set "customer_id" customer_id params
    | None => params
    end.

(** What a successful call of [tool_name] reports: the announcement, the call
    and the answer. *)
Definition call_report (tool_name : string) (kwargs : dict) (next_depth : Z)
    (resp : value) : list event :=
  [PrintFollowing (VStr tool_name) (VObj kwargs) next_depth;
   CallTool (VStr tool_name) kwargs;
   PrintResult (VStr tool_name) resp].

(** The sub-chain of a tool's answer: the follower one level down on the
    answer, and the report of the exception it raised, if any. *)
Definition sub_chain (tools : registry) (max_depth _depth : Z)
    (tool_name : string) (resp : value) : list event :=
  let sub := follow tools resp max_depth (_depth + 1) in
  (trace sub ++ caught (VStr tool_name) (status sub))%list.

(** The [params] of each entry of [next_steps], as the result holds them. *)
Definition entry_params (result : value) : list (option value) :=
  match field "next_steps" result with
  | Some (VArr steps) => map (field "params") steps
  | _ => []
  end.

(** A parent result with one tool invocation whose [params] are empty. *)
Definition bare_invocation : value :=
  VObj [("customer_id", VStr "C1");
        ("next_steps",
         VArr [VObj [("tool", VStr "generate_compliance_report");
                     ("params", VObj [])]])].

(** ** The tool adapter and the walk-throughs of [mcp-cdd/example_client.py] *)

Module example_client_demo.

(** What calling a Python callable gives: a plain value, or an awaitable
    with the outcome of awaiting it. *)
Inductive returned : Type :=
| Plain (v : value)
| Awaitable (awaited : py value).

(** A callable, applied to positional and keyword arguments. *)
Definition callee := list value -> dict -> py returned.

(** An attribute of an object: a callable, or anything else. *)
Inductive attribute : Type :=
| Callable (f : callee)
| Data.

(** A tool object as [_call_tool] probes it: [repr(type(tool))], what
    calling the object does when [callable(tool)] holds, and [getattr]. *)
Record tool_object : Type := mkTool {
  type_repr : string;
  when_called : option callee;
  getattr : string -> option attribute
}.

(** The call of [f] on the arguments, awaited when its result is awaitable. *)
Definition call_and_await (f : callee) (args : list value) (kwargs : dict)
    : py value :=
  res <- f args kwargs ;;
  match res with
  | Plain v => Ret v
  | Awaitable awaited => awaited
  end.

(** What [except TypeError] catches. *)
Definition is_type_error (e : exn) : bool :=
  match e with
  | Exn cls _ => (cls =? "TypeError")%string
  end.

(** The first of the named attributes that the object has and that is
    callable. *)
Fixpoint first_callable (tool : tool_object) (names : list string)
    : option callee :=
  match names with
  | [] => None
  | name :: rest =>
      match getattr tool name with
      | Some (Callable f) => Some f
      | _ => first_callable tool rest
      end
  end.

Definition original_function_attributes : list string :=
  ["__wrapped__"; "func"; "fn"; "function"].

Definition invocation_helpers : list string := ["call"; "invoke"; "run"].

Definition _call_tool (tool : tool_object) (args : list value) (kwargs : dict)
    : py value :=
  let further_attempts :=
    match first_callable tool original_function_attributes with
    | Some orig => call_and_await orig args kwargs
    | None =>
        match first_callable tool invocation_helpers with
        | Some helper => call_and_await helper args kwargs
        | None =>
            Raise (Exn "TypeError"
                     ("Tool object of type " ++ type_repr tool
                      ++ " is not callable and no underlying function was found"))
        end
    end in
  match when_called tool with
  | Some f =>
      match call_and_await f args kwargs with
      | Ret v => Ret v
      | Raise e => if is_type_error e then further_attempts else Raise e
      end
  | None => further_attempts
  end.

(** An [async def] taking [customer_id]: a call that cannot bind its
    arguments raises at once, the body runs when the result is awaited. *)
Definition async_responder (body : value -> py value) : callee :=
  fun args kwargs =>
    match args with
    | [] =>
        match kwargs with
        | [(k, customer_id)] =>
            if (k =? "customer_id")%string then Ret (Awaitable (body customer_id))
            else Raise (Exn "TypeError"
                          ("got an unexpected keyword argument '" ++ k ++ "'"))
        | [] =>
            Raise (Exn "TypeError"
                     "missing 1 required positional argument: 'customer_id'")
        | _ :: _ :: _ =>
            Raise (Exn "TypeError" "got an unexpected keyword argument")
        end
    | [customer_id] =>
        match kwargs with
        | [] => Ret (Awaitable (body customer_id))
        | _ :: _ => Raise (Exn "TypeError" "got multiple values or an unexpected keyword argument")
        end
    | _ :: _ :: _ =>
        Raise (Exn "TypeError" "takes 1 positional argument but more were given")
    end.

(** The object the decorator of the responders leaves, as the docstring of
    [_call_tool] has it: a wrapper that is not callable and keeps the
    function under [fn]. *)
Definition function_tool (body : value -> py value) : tool_object :=
  mkTool "<class 'fastmcp.tools.tool.FunctionTool'>" None
    (fun name =>
       if (name =? "fn")%string then Some (Callable (async_responder body))
       else None).

(** What the walk-throughs write: a line, a labelled JSON dump, or a report
    of the follower. *)
Inductive output : Type :=
| Banner (text : string)
| Dump (label : string) (doc : value)
| Chained (e : event).

(** The four documents of one customer. *)
Definition four_documents (customer_id : value)
    : py (value * value * value * value) :=
  profile <- _call_tool (function_tool get_customer_profile) [customer_id] [] ;;
  score <- _call_tool (function_tool get_risk_score) [customer_id] [] ;;
  explanation <- _call_tool (function_tool explain_risk) [customer_id] [] ;;
  report <- _call_tool (function_tool generate_compliance_report) [customer_id] [] ;;
  Ret (profile, score, explanation, report).

Definition dumps (docs : value * value * value * value) : list output :=
  let '(profile, score, explanation, report) := docs in
  [Dump "Customer profile:" profile;
   Dump "Risk score:" score;
   Dump "Risk explanation:" explanation;
   Dump "Compliance report:" report].

(** [run_demo]: the outputs and how the call ends. *)
Definition run_demo (customer_id : value) : list output * outcome :=
  match four_documents customer_id with
  | Raise e => ([], Raised e)
  | Ret docs =>
      let '(profile, _, _, _) := docs in
      let chain := follow_next_steps profile 4 0 in
      ((Banner "--- Example client results (local import) ---" :: dumps docs
        ++ map Chained (trace chain))%list,
       status chain)
  end.

(** Lines 141-142. *)
Definition pos_customer (customer_id : value) : value :=
  VStr (format_customer_id customer_id ++ "-POS").

Definition neg_customer (customer_id : value) : value :=
  VStr (format_customer_id customer_id ++ "-NEG").

(** [run_scenarios]: the outputs and how the call ends. *)
Definition run_scenarios (customer_id : value) : list output * outcome :=
  match
    (_ <- four_documents customer_id ;;
     pos <- four_documents (pos_customer customer_id) ;;
     neg <- four_documents (neg_customer customer_id) ;;
     Ret (pos, neg))
  with
  | Raise e => ([], Raised e)
  | Ret (pos, neg) =>
      let '(pos_profile, _, _, _) := pos in
      let '(neg_profile, _, _, _) := neg in
      let pos_chain := follow_next_steps pos_profile 4 0 in
      let positive :=
        (Banner "================== POSITIVE SCENARIO ==================" :: dumps pos
         ++ map Chained (trace pos_chain))%list in
      match status pos_chain with
      | Returned =>
          let neg_chain := follow_next_steps neg_profile 4 0 in
          ((positive
            ++ Banner "================== NEGATIVE SCENARIO ==================" :: dumps neg
            ++ map Chained (trace neg_chain))%list,
           status neg_chain)
      | stopped => (positive, stopped)
      end
  end.

End example_client_demo.

Export example_client_demo.

(** ** The workflow-engine adapter: [mcp-server/camunda_server.py] *)

Module camunda_server.

(** The request handed to the HTTP client. *)
Record http_request : Type := mkRequest {
  req_method : string;
  req_url : string;
  req_auth : option (string * string);
  req_params : option dict;
  req_json : option dict;
  req_timeout : Z
}.

(** The response of the HTTP client, by what its methods give:
    [raise_for_status()], [text] and [json()]. *)
Record http_response : Type := mkResponse {
  raise_for_status : py unit;
  text : string;
  json : py value
}.

(** An optional string argument that is given and not empty. *)
Definition given (arg : option string) : option string :=
  match arg with
  | Some s => if (s =? "")%string then None else Some s
  | None => None
  end.

(** [if arg: d[k] = wrap(arg)] *)
Definition put_if_given (k : string) (arg : option string)
    (wrap : string -> value) (d : dict) : dict :=
  match given arg with
  | Some s => dict_set k (wrap s) d
  | None => d
  end.

(** The comprehension of lines 123-126 and 270-273: every variable becomes
    [{"value": value, "type": "String"}]. *)
Definition camunda_variables (variables : dict) : dict :=
  map (fun nv => (fst nv, VObj [("value", snd nv); ("type", VStr "String")]))
    variables.

(** [if variables: payload["variables"] = ...] *)
Definition put_variables (variables : option dict) (payload : dict) : dict :=
  match variables with
  | Some vs =>
      if truthy (VObj vs) then
        dict_set "variables" (VObj (camunda_variables vs)) payload
      else payload
  | None => payload
  end.

Definition list_process_definitions_params (key name : option string)
    (latest_version : bool) (max_results : Z) : dict :=
  let params :=
    [("maxResults", VNum max_results); ("latestVersion", VBool latest_version)] in
  let params := put_if_given "keyLike" key (fun k => VStr ("%" ++ k ++ "%")) params in
  put_if_given "nameLike" name (fun n => VStr ("%" ++ n ++ "%")) params.

Definition start_process_instance_payload (business_key : option string)
    (variables : option dict) : dict :=
  let payload := put_if_given "businessKey" business_key VStr [] in
  put_variables variables payload.

Definition list_process_instances_params
    (process_definition_key business_key : option string) (active : bool)
    (max_results : Z) : dict :=
  let params := [("maxResults", VNum max_results)] in
  let params := put_if_given "processDefinitionKey" process_definition_key VStr params in
  let params := put_if_given "businessKey" business_key VStr params in
  if active then dict_set "active" (VStr "true") params else params.

Definition delete_process_instance_params (reason : option string) : dict :=
  put_if_given "reason" reason VStr [].

Definition list_tasks_params
    (process_instance_id assignee candidate_user : option string)
    (max_results : Z) : dict :=
  let params := [("maxResults", VNum max_results)] in
  let params := put_if_given "processInstanceId" process_instance_id VStr params in
  let params := put_if_given "assignee" assignee VStr params in
  put_if_given "candidateUser" candidate_user VStr params.

Definition complete_task_payload (variables : option dict) : dict :=
  put_variables variables [].

Section Engine.

(** The configuration read from the environment and the HTTP client. *)
Variables CAMUNDA_URL CAMUNDA_USER CAMUNDA_PASSWORD : string.
Variable client_request : http_request -> py http_response.

Definition get_auth : option (string * string) :=
  if negb (CAMUNDA_USER =? "")%string && negb (CAMUNDA_PASSWORD =? "")%string
  then Some (CAMUNDA_USER, CAMUNDA_PASSWORD)
  else None.

Definition camunda_request (endpoint method : string) (params json_data : option dict)
    : py value :=
  let url := CAMUNDA_URL ++ "/" ++ endpoint in
  let auth := get_auth in
  response <- client_request (mkRequest method url auth params json_data 30) ;;
  _ <- raise_for_status response ;;
  if negb (text response =? "")%string then json response else Ret VNull.

Definition list_process_definitions (key name : option string)
    (latest_version : bool) (max_results : Z) : py value :=
  camunda_request "process-definition" "GET"
    (Some (list_process_definitions_params key name latest_version max_results))
    None.

Definition get_process_definition (definition_id : string) : py value :=
  camunda_request ("process-definition/" ++ definition_id) "GET" None None.

Definition start_process_instance (key : string) (business_key : option string)
    (variables : option dict) : py value :=
  camunda_request ("process-definition/key/" ++ key ++ "/start") "POST" None
    (Some (start_process_instance_payload business_key variables)).

Definition list_process_instances
    (process_definition_key business_key : option string) (active : bool)
    (max_results : Z) : py value :=
  camunda_request "process-instance" "GET"
    (Some (list_process_instances_params process_definition_key business_key
             active max_results))
    None.

Definition get_process_instance (instance_id : string) : py value :=
  camunda_request ("process-instance/" ++ instance_id) "GET" None None.

Definition delete_process_instance (instance_id : string)
    (reason : option string) : py string :=
  _ <- camunda_request ("process-instance/" ++ instance_id) "DELETE"
         (Some (delete_process_instance_params reason)) None ;;
  Ret ("Process instance " ++ instance_id ++ " deleted successfully").

Definition list_tasks
    (process_instance_id assignee candidate_user : option string)
    (max_results : Z) : py value :=
  camunda_request "task" "GET"
    (Some (list_tasks_params process_instance_id assignee candidate_user
             max_results))
    None.

Definition get_task (task_id : string) : py value :=
  camunda_request ("task/" ++ task_id) "GET" None None.

Definition complete_task (task_id : string) (variables : option dict)
    : py string :=
  _ <- camunda_request ("task/" ++ task_id ++ "/complete") "POST" None
         (Some (complete_task_payload variables)) ;;
  Ret ("Task " ++ task_id ++ " completed successfully").

Definition claim_task (task_id user_id : string) : py string :=
  _ <- camunda_request ("task/" ++ task_id ++ "/claim") "POST" None
         (Some [("userId", VStr user_id)]) ;;
  Ret ("Task " ++ task_id ++ " claimed by " ++ user_id).

Definition get_task_variables (task_id : string) : py value :=
  camunda_request ("task/" ++ task_id ++ "/variables") "GET" None None.

Definition get_process_variables (instance_id : string) : py value :=
  camunda_request ("process-instance/" ++ instance_id ++ "/variables") "GET"
    None None.

End Engine.

End camunda_server.

(** ** Vocabulary of the further properties *)

(** The length of the longest chain of calls a tool of the registry starts. *)
Definition rank (name : string) : nat :=
  if (name =? "get_customer_profile")%string then 3
  else if (name =? "get_risk_score")%string then 2
  else if (name =? "explain_risk")%string then 1
  else 0.

(** An entry as the responders write them: a note for a human, or the call
    of a registered tool that starts a chain shorter than [k], with the
    customer's identifier as its only parameter. *)
Definition chain_entry (customer_id : value) (k : nat) (step : value) : Prop :=
  (exists note, step = VStr note) \/
  (exists name func,
      step = tool_step name customer_id /\
      tool_map name = Some func /\
      (rank name < k)%nat).

(** A document as the responders write them. *)
Definition chain_document (customer_id : value) (k : nat) (doc : value) : Prop :=
  exists fields steps,
    doc = VObj fields /\
    dict_get "customer_id" fields = Some customer_id /\
    dict_get "next_steps" fields = Some (VArr steps) /\
    Forall (chain_entry customer_id k) steps.

(** The report of an unknown tool or of a caught exception. *)
Definition is_failure (e : event) : bool :=
  match e with
  | PrintUnknownTool _ | PrintError _ _ => true
  | _ => false
  end.

(** The report of a truncation by the depth guard. *)
Definition is_truncation (e : event) : bool :=
  match e with
  | PrintMaxDepth _ => true
  | _ => false
  end.

(** The documents of a customer in the negative and in the positive
    scenario, by the fields that tell the scenario. *)
Definition tells_negative (docs : value * value * value * value) : Prop :=
  let '(profile, score, explanation, report) := docs in
  field "status" profile = Some (VStr "under_review") /\
  field "risk_profile" profile = Some (VStr "high") /\
  field "score" score = Some (VNum 100) /\
  field "interpretation" score = Some (VStr "High risk") /\
  field "recommendation" explanation =
    Some (VArr [VStr "Immediate enhanced due diligence";
                VStr "Temporary transaction restrictions";
                VStr "Collect and verify source-of-funds and beneficial ownership documentation"]) /\
  (exists issue1 issue2,
      field "summary" report =
      Some (VObj [("kyc_verified", VBool false);
                  ("aml_checks_passed", VBool false);
                  ("open_issues", VArr [issue1; issue2])])).

Definition tells_positive (docs : value * value * value * value) : Prop :=
  let '(profile, score, explanation, report) := docs in
  field "status" profile = Some (VStr "active") /\
  field "risk_profile" profile = Some (VStr "low") /\
  field "score" score = Some (VNum 21) /\
  field "interpretation" score = Some (VStr "Low risk") /\
  field "recommendation" explanation =
    Some (VArr [VStr "Standard monitoring"; VStr "Annual re-check"]) /\
  field "summary" report =
    Some (VObj [("kyc_verified", VBool true);
                ("aml_checks_passed", VBool true);
                ("open_issues", VArr [])]).

(** The exception [_call_tool] ends with when it finds nothing to call. *)
Definition not_callable_error (tool : tool_object) : exn :=
  Exn "TypeError"
    ("Tool object of type " ++ type_repr tool
     ++ " is not callable and no underlying function was found").

(** The attributes [_call_tool] probes, in the order of its two loops. *)
Definition probed_attributes : list string :=
  (original_function_attributes ++ invocation_helpers)%list.

(** The object is not callable, or calling it raised a [TypeError]. *)
Definition falls_through (tool : tool_object) (args : list value)
    (kwargs : dict) : Prop :=
  when_called tool = None \/
  exists f e,
    when_called tool = Some f /\
    call_and_await f args kwargs = Raise e /\
    is_type_error e = true.

(** A value that is no container: [in] cannot be asked of it. *)
Definition no_container (v : value) : Prop :=
  match v with
  | VNull | VBool _ | VNum _ => True
  | _ => False
  end.

(** The depths an event may report in a run from [_depth] under
    [max_depth]: a call is announced at a depth above [_depth] and not above
    [max_depth], a truncation at [max_depth]. *)
Definition depth_within (_depth max_depth : Z) (e : event) : Prop :=
  match e with
  | PrintFollowing _ _ next_depth => _depth < next_depth <= max_depth
  | PrintMaxDepth reached => reached = max_depth
  | _ => True
  end.

(** A process variable as the engine is sent it. *)
Definition wrapped_variable (v : value) : value :=
  VObj [("value", v); ("type", VStr "String")].

(** A response the adapter takes for a success: the status check passes and
    the body is empty or decodes. *)
Definition accepted (response : camunda_server.http_response) : Prop :=
  camunda_server.raise_for_status response = Ret tt /\
  (camunda_server.text response = "" \/
   exists v, camunda_server.json response = Ret v).

(** Each of the four documents echoes the identifier. *)
Definition echoed (customer_id : value) (docs : value * value * value * value)
    : Prop :=
  let '(profile, score, explanation, report) := docs in
  field "customer_id" profile = Some customer_id /\
  field "customer_id" score = Some customer_id /\
  field "customer_id" explanation = Some customer_id /\
  field "customer_id" report = Some customer_id.

(** ** Strings *)

Lemma lower_upper_char (c : ascii) : lower_char (upper_char c) = lower_char c.
Proof. destruct c as [[] [] [] [] [] [] [] []]; reflexivity. Qed.

Lemma lower_char_inv (c : ascii) :
  c = lower_char c \/ c = upper_char (lower_char c).
Proof.
  destruct c as [[] [] [] [] [] [] [] []];
    first [left; reflexivity | right; reflexivity].
Qed.

Lemma lower_app (s t : string) : lower (s ++ t) = (lower s ++ lower t)%string.
Proof.
  induction s as [|c s IH]; simpl; [reflexivity|].
  now rewrite IH.
Qed.

Lemma lower_app_inv (s a b : string) :
  lower s = (a ++ b)%string ->
  exists x y, s = (x ++ y)%string /\ lower x = a /\ lower y = b.
Proof.
  revert s; induction a as [|c a IH]; intros s H.
  - exists ""%string, s. auto.
  - destruct s as [|c' s]; simpl in H; [discriminate|].
    injection H as Hc Hs.
    destruct (IH _ Hs) as (x & y & -> & Hx & Hy).
    exists (String c' x), y. simpl. now rewrite Hc, Hx.
Qed.

Lemma any_case_lower (w t : string) :
  any_case w t -> lower t = lower w.
Proof.
  induction 1; simpl; [reflexivity| |].
  - now rewrite IHany_case.
  - now rewrite lower_upper_char, IHany_case.
Qed.

Lemma lower_any_case (t : string) : any_case (lower t) t.
Proof.
  induction t as [|c t IH]; simpl; [constructor|].
  destruct (lower_char_inv c) as [E|E].
  - rewrite <- E. now constructor.
  - rewrite E at 2. now constructor.
Qed.

Lemma prefix_app (p s : string) :
  String.prefix p s = true <-> exists suf, s = (p ++ suf)%string.
Proof.
  revert s; induction p as [|c p IH]; intros s.
  - split; [exists s; reflexivity | now destruct s].
  - destruct s as [|c' s]; simpl.
    + split; [discriminate | intros [suf H]; discriminate].
    + destruct (ascii_dec c c') as [->|Hne].
      * rewrite IH. split; intros [suf H]; exists suf.
        -- now rewrite H.
        -- now injection H.
      * split; [discriminate|]. intros [suf H]. injection H as H1 _.
        now elim Hne.
Qed.

Lemma str_in_app (w s : string) :
  str_in w s = true <-> exists pre suf, s = (pre ++ w ++ suf)%string.
Proof.
  induction s as [|c s IH].
  - cbn [str_in]. rewrite orb_false_r, prefix_app. split.
    + intros [suf H]. now exists ""%string, suf.
    + intros (pre & suf & H). destruct pre; [now exists suf|discriminate].
  - cbn [str_in]. rewrite orb_true_iff, prefix_app, IH. split.
    + intros [[suf H]|(pre & suf & H)].
      * now exists ""%string, suf.
      * exists (String c pre), suf. simpl. now rewrite H.
    + intros (pre & suf & H). destruct pre as [|c' pre].
      * left. now exists suf.
      * right. injection H as _ H. now exists pre, suf.
Qed.

(** The test of the source, [w in customer_id.lower()], decides whether the
    identifier contains the lower-case word [w] in any case. *)
Lemma str_in_lower (w id : string) :
  lower w = w ->
  (str_in w (lower id) = true <-> contains_any_case w id).
Proof.
  intros Hw. rewrite str_in_app. split.
  - intros (pre & suf & H).
    apply lower_app_inv in H as (x & y & -> & <- & H).
    apply lower_app_inv in H as (t & z & -> & <- & <-).
    exists x, t, z. split; [apply lower_any_case | reflexivity].
  - intros (pre & t & suf & Hac & ->).
    exists (lower pre), (lower suf).
    now rewrite !lower_app, (any_case_lower _ _ Hac), Hw.
Qed.

Lemma str_in_longer (w w' s : string) :
  str_in (w ++ w') s = true -> str_in w s = true.
Proof.
  rewrite !str_in_app. intros (pre & suf & ->).
  exists pre, (w' ++ suf)%string.
  f_equal. induction w as [|c w IH]; simpl; [reflexivity | now rewrite IH].
Qed.

(** ** The scenario responder *)

Lemma infer_scenario_str (id : string) :
  _infer_scenario_for_customer (VStr id) =
  Ret (if str_in "neg" (lower id) then "negative" else "positive").
Proof.
  unfold _infer_scenario_for_customer. cbn [truthy py_lower bind].
  destruct (String.eqb_spec id "") as [->|_]; [reflexivity|]. cbn [negb].
  destruct (str_in "neg" (lower id)) eqn:Hneg; [reflexivity|].
  assert (Hlong : str_in "negative" (lower id) = false).
  { destruct (str_in "negative" (lower id)) eqn:E; [|reflexivity].
    apply (str_in_longer "neg" "ative") in E. congruence. }
  rewrite Hlong. cbn [orb].
  now destruct (str_in "pos" (lower id) || str_in "positive" (lower id)).
Qed.

(** C2. The classification is a total function of the identifier: an
    identifier containing "neg" in any case is negative; one containing "pos"
    in any case and no "neg" is positive; every other identifier, the empty
    one among them, is positive. *)
Theorem classification_total (id : string) :
  (exists scenario,
      _infer_scenario_for_customer (VStr id) = Ret scenario /\
      (scenario = "positive" \/ scenario = "negative")) /\
  (contains_any_case "neg" id ->
   _infer_scenario_for_customer (VStr id) = Ret "negative") /\
  (contains_any_case "pos" id -> ~ contains_any_case "neg" id ->
   _infer_scenario_for_customer (VStr id) = Ret "positive") /\
  (~ contains_any_case "neg" id -> ~ contains_any_case "pos" id ->
   _infer_scenario_for_customer (VStr id) = Ret "positive") /\
  _infer_scenario_for_customer (VStr "") = Ret "positive".
Proof.
  rewrite infer_scenario_str.
  pose proof (str_in_lower "neg" id eq_refl) as Hneg.
  destruct (str_in "neg" (lower id)).
  - split; [eauto|]. repeat split; try reflexivity.
    + intros _ Hn. elim Hn. now apply Hneg.
    + intros Hn _. elim Hn. now apply Hneg.
  - split; [eauto|]. repeat split; try reflexivity.
    intros Hc. apply Hneg in Hc. discriminate.
Qed.

(** The classification at work: "CUST-Neg-7" contains "Neg". *)
Lemma classification_total_witness :
  contains_any_case "neg" "CUST-Neg-7" /\
  _infer_scenario_for_customer (VStr "CUST-Neg-7") = Ret "negative".
Proof.
  assert (H : contains_any_case "neg" "CUST-Neg-7").
  { exists "CUST-", "Neg", "-7". split; [|reflexivity].
    apply (any_case_upper "n"), any_case_same, any_case_same, any_case_nil. }
  split; [exact H|].
  exact (proj1 (proj2 (classification_total "CUST-Neg-7")) H).
Defined.

Lemma negative_score :
  int_of_float (PrimFloat.mul (float_of_int sum_factors) two) = 144.
Proof. vm_compute. reflexivity. Qed.

Lemma positive_score :
  int_of_float (PrimFloat.mul (float_of_int sum_factors) three_tenths) = 21.
Proof. vm_compute. reflexivity. Qed.

Lemma get_risk_score_str (id : string) :
  scored (get_risk_score (VStr id))
    (if str_in "neg" (lower id) then 100 else 21)
    (if str_in "neg" (lower id) then "High risk" else "Low risk").
Proof.
  unfold scored, get_risk_score. rewrite infer_scenario_str.
  rewrite negative_score, positive_score.
  destruct (str_in "neg" (lower id)); cbn [bind];
    (eexists; split; [reflexivity | split; reflexivity]).
Qed.

(** C1, as the code has it. An identifier that classifies as negative gets
    score 100 and interpretation "High risk"; one that classifies as positive
    gets score 21 (the integer part of 72 * 0.3) and interpretation
    "Low risk". *)
Theorem risk_score_by_scenario (id : string) :
  (_infer_scenario_for_customer (VStr id) = Ret "negative" ->
   scored (get_risk_score (VStr id)) 100 "High risk") /\
  (_infer_scenario_for_customer (VStr id) = Ret "positive" ->
   scored (get_risk_score (VStr id)) 21 "Low risk").
Proof.
  pose proof (get_risk_score_str id) as H.
  rewrite infer_scenario_str.
  destruct (str_in "neg" (lower id)); split; intros E;
    first [exact H | discriminate E].
Qed.

Lemma risk_score_by_scenario_witness :
  scored (get_risk_score (VStr "X-NEG")) 100 "High risk" /\
  scored (get_risk_score (VStr "X-POS")) 21 "Low risk".
Proof.
  split.
  - apply (proj1 (risk_score_by_scenario "X-NEG")). reflexivity.
  - apply (proj2 (risk_score_by_scenario "X-POS")). reflexivity.
Defined.

(** C1, as the specification has it, fails: "X-POS" classifies as positive
    and its score is not 22. *)
Lemma risk_score_positive_is_not_22 :
  _infer_scenario_for_customer (VStr "X-POS") = Ret "positive" /\
  ~ scored (get_risk_score (VStr "X-POS")) 22 "Low risk".
Proof.
  split; [reflexivity|].
  intros (result & Hret & Hscore & _).
  vm_compute in Hret. injection Hret as <-.
  vm_compute in Hscore. discriminate Hscore.
Qed.

(** C9. Each of the four operations answers every identifier with a dict
    whose [customer_id] is the identifier and whose [next_steps] is a list
    with at least one entry. *)
Theorem responders_echo_and_continue (id : string) :
  Forall (fun operation => echoes_and_continues (VStr id) (operation (VStr id)))
    responder_operations.
Proof.
  unfold responder_operations, echoes_and_continues.
  repeat constructor.
  - unfold get_customer_profile. rewrite infer_scenario_str.
    destruct (str_in "neg" (lower id)); cbn;
      (do 2 eexists; split; [reflexivity|];
       split; [reflexivity|]; split; [reflexivity | discriminate]).
  - unfold get_risk_score. rewrite infer_scenario_str.
    rewrite negative_score, positive_score.
    destruct (str_in "neg" (lower id)); cbn;
      (do 2 eexists; split; [reflexivity|];
       split; [reflexivity|]; split; [reflexivity | discriminate]).
  - unfold explain_risk. rewrite infer_scenario_str.
    destruct (str_in "neg" (lower id)); cbn;
      (do 2 eexists; split; [reflexivity|];
       split; [reflexivity|]; split; [reflexivity | discriminate]).
  - unfold generate_compliance_report. rewrite infer_scenario_str.
    destruct (str_in "neg" (lower id)); cbn;
      (do 2 eexists; split; [reflexivity|];
       split; [reflexivity|]; split; [reflexivity | discriminate]).
Qed.

(** ** The follower: unfolding, budget and loop *)

Lemma dict_set_same (k : string) (v : value) (d : dict) :
  dict_get k d = Some v -> dict_set k v d = d.
Proof.
  induction d as [|[k' v'] d IH]; simpl; [discriminate|].
  destruct (k' =? k)%string.
  - now intros [= ->].
  - intros H. now rewrite IH.
Qed.

Section FollowerFacts.

Variable tools : registry.

Section Extensionality.

Variables rec1 rec2 : value -> run.
Hypothesis rec_ext : forall resp, rec1 resp = rec2 resp.

Lemma invoke_step_ext result _depth step tool_name :
  invoke_step tools rec1 result _depth step tool_name =
  invoke_step tools rec2 result _depth step tool_name.
Proof.
  unfold invoke_step.
  destruct (inject_customer_id result (step_params step)) as [params|e];
    [|reflexivity].
  destruct (registry_get tools tool_name) as [[func|]|e]; try reflexivity.
  destruct params as [| | | | |kwargs]; try reflexivity.
  destruct (dict_has "tool" kwargs); [reflexivity|].
  destruct (func kwargs); [|reflexivity].
  now rewrite rec_ext.
Qed.

Lemma process_step_ext result _depth step :
  process_step tools rec1 result _depth step =
  process_step tools rec2 result _depth step.
Proof.
  unfold process_step. destruct step; try reflexivity.
  destruct (dict_get "tool" fields); [|reflexivity].
  destruct (truthy v); [apply invoke_step_ext | reflexivity].
Qed.

Lemma run_steps_ext result _depth steps :
  run_steps tools rec1 result _depth steps =
  run_steps tools rec2 result _depth steps.
Proof.
  induction steps as [|step rest IH]; simpl; [reflexivity|].
  now rewrite process_step_ext, IH.
Qed.

Lemma follow_body_ext result _depth :
  follow_body tools rec1 result _depth = follow_body tools rec2 result _depth.
Proof.
  unfold follow_body. destruct result; try reflexivity.
  destruct (negb _); [reflexivity|].
  destruct (match dict_get "next_steps" fields with
            | Some v => if truthy v then v else VArr []
            | None => VArr []
            end); try reflexivity;
    cbn [py_iter]; now rewrite run_steps_ext.
Qed.

End Extensionality.

(** Under the guard the follower reports the truncation and stops. *)
Lemma follow_guard result max_depth _depth :
  max_depth <= _depth ->
  follow tools result max_depth _depth =
  mkRun [PrintMaxDepth _depth] result Returned.
Proof.
  intros H. unfold follow.
  destruct (Z.to_nat (max_depth - _depth)); simpl;
    now rewrite (proj2 (Z.leb_le _ _) H).
Qed.

(** Below the guard the follower is its body, with itself one level down
    for the nested calls. *)
Lemma follow_unfold result max_depth _depth :
  _depth < max_depth ->
  follow tools result max_depth _depth =
  follow_body tools (fun resp => follow tools resp max_depth (_depth + 1))
    result _depth.
Proof.
  intros H. unfold follow.
  replace (Z.to_nat (max_depth - _depth))
    with (S (Z.to_nat (max_depth - (_depth + 1)))) by lia.
  simpl. now rewrite (proj2 (Z.leb_gt _ _) H).
Qed.

(** Any budget that covers the remaining levels gives the same run. *)
Lemma follow_fuel_enough fuel result max_depth _depth :
  (Z.to_nat (max_depth - _depth) <= fuel)%nat ->
  follow_fuel tools fuel result max_depth _depth =
  follow tools result max_depth _depth.
Proof.
  revert result _depth.
  induction fuel as [|fuel IH]; intros result _depth Hfuel.
  - unfold follow. now replace (Z.to_nat (max_depth - _depth)) with O by lia.
  - destruct (Z.leb_spec max_depth _depth) as [Hle|Hlt].
    + rewrite follow_guard by assumption. simpl.
      now rewrite (proj2 (Z.leb_le _ _) Hle).
    + rewrite follow_unfold by assumption. simpl.
      rewrite (proj2 (Z.leb_gt _ _) Hlt).
      apply follow_body_ext. intros resp. apply IH. lia.
Qed.

(** *** The budget is never exhausted *)

Section Budget.

Variable rec : value -> run.
Hypothesis rec_fuel : forall resp, status (rec resp) <> OutOfFuel.

Lemma process_step_fuel result _depth step :
  status (process_step tools rec result _depth step) <> OutOfFuel.
Proof.
  unfold process_step, invoke_step.
  destruct step; try discriminate.
  destruct (dict_get "tool" fields); [|discriminate].
  destruct (truthy v); [|discriminate].
  destruct (inject_customer_id result (step_params fields)) as [params|e];
    [|discriminate].
  destruct (registry_get tools v) as [[func|]|e]; try discriminate.
  destruct params as [| | | | |kwargs]; try discriminate.
  destruct (dict_has "tool" kwargs); [discriminate|].
  destruct (func kwargs) as [resp|e]; [|discriminate].
  cbn [status]. specialize (rec_fuel resp).
  now destruct (status (rec resp)).
Qed.

Lemma run_steps_fuel result _depth steps :
  lstatus (run_steps tools rec result _depth steps) <> OutOfFuel.
Proof.
  induction steps as [|step rest IH]; simpl; [discriminate|].
  pose proof (process_step_fuel result _depth step) as H.
  destruct (status (process_step tools rec result _depth step));
    cbn [lstatus]; [assumption | discriminate | congruence].
Qed.

Lemma follow_body_fuel result _depth :
  status (follow_body tools rec result _depth) <> OutOfFuel.
Proof.
  unfold follow_body. destruct result; try discriminate.
  destruct (negb _); [discriminate|].
  destruct (match dict_get "next_steps" fields with
            | Some v => if truthy v then v else VArr []
            | None => VArr []
            end); cbn [py_iter status]; try discriminate;
    apply run_steps_fuel.
Qed.

End Budget.

Lemma follow_status result max_depth _depth :
  status (follow tools result max_depth _depth) <> OutOfFuel.
Proof.
  remember (Z.to_nat (max_depth - _depth)) as n eqn:Hn.
  revert result _depth Hn.
  induction n as [|n IH]; intros result _depth Hn.
  - rewrite follow_guard by lia. discriminate.
  - rewrite follow_unfold by lia.
    apply follow_body_fuel. intros resp. apply IH. lia.
Qed.

(** *** The loop *)

Section Loop.

Variable rec : value -> run.

Lemma run_steps_app result _depth pre post :
  lstatus (run_steps tools rec result _depth pre) = Returned ->
  run_steps tools rec result _depth (pre ++ post) =
  mkLoop (ltrace (run_steps tools rec result _depth pre)
          ++ ltrace (run_steps tools rec result _depth post))
         (lsteps (run_steps tools rec result _depth pre)
          ++ lsteps (run_steps tools rec result _depth post))
         (lstatus (run_steps tools rec result _depth post)).
Proof.
  induction pre as [|step pre IH]; simpl.
  - intros _. now destruct (run_steps tools rec result _depth post).
  - destruct (status (process_step tools rec result _depth step));
      cbn [lstatus]; try discriminate.
    intros H. rewrite (IH H). cbn [ltrace lsteps lstatus].
    now rewrite app_assoc.
Qed.

Lemma run_steps_at result _depth pre step post :
  lstatus (run_steps tools rec result _depth pre) = Returned ->
  status (process_step tools rec result _depth step) = Returned ->
  ltrace (run_steps tools rec result _depth (pre ++ step :: post)) =
    (ltrace (run_steps tools rec result _depth pre)
     ++ trace (process_step tools rec result _depth step)
     ++ ltrace (run_steps tools rec result _depth post))%list /\
  lstatus (run_steps tools rec result _depth (pre ++ step :: post)) =
    lstatus (run_steps tools rec result _depth post).
Proof.
  intros Hpre Hstep. rewrite (run_steps_app _ _ _ _ Hpre).
  cbn [ltrace lstatus run_steps]. rewrite Hstep. now cbn [ltrace lstatus].
Qed.

End Loop.

(** The follower on a dict whose [next_steps] is a list with entries. *)
Lemma follow_list fields steps max_depth _depth :
  _depth < max_depth ->
  dict_get "next_steps" fields = Some (VArr steps) ->
  steps <> [] ->
  follow tools (VObj fields) max_depth _depth =
  let l := follow_steps tools max_depth _depth fields steps in
  mkRun (ltrace l) (VObj (dict_set "next_steps" (VArr (lsteps l)) fields))
    (lstatus l).
Proof.
  intros Hd Hsteps Hne. rewrite follow_unfold by assumption.
  unfold follow_body. rewrite Hsteps.
  destruct steps; [congruence | reflexivity].
Qed.

(** The follower around one entry: the entries before it, the entry, and
    the entries after it. *)
Lemma follow_at fields pre step post max_depth _depth :
  _depth < max_depth ->
  dict_get "next_steps" fields = Some (VArr (pre ++ step :: post)) ->
  lstatus (follow_steps tools max_depth _depth fields pre) = Returned ->
  status (process_step tools
            (fun resp => follow tools resp max_depth (_depth + 1))
            fields _depth step) = Returned ->
  trace (follow tools (VObj fields) max_depth _depth) =
    (ltrace (follow_steps tools max_depth _depth fields pre)
     ++ trace (process_step tools
                 (fun resp => follow tools resp max_depth (_depth + 1))
                 fields _depth step)
     ++ ltrace (follow_steps tools max_depth _depth fields post))%list /\
  status (follow tools (VObj fields) max_depth _depth) =
    lstatus (follow_steps tools max_depth _depth fields post).
Proof.
  intros Hd Hsteps Hpre Hstep.
  rewrite (follow_list _ _ _ _ Hd Hsteps) by now destruct pre.
  cbn [trace status]. unfold follow_steps in *.
  now apply run_steps_at.
Qed.

End FollowerFacts.

(** ** The number of tool calls *)

Lemma tool_calls_app (t u : list event) :
  tool_calls (t ++ u) = (tool_calls t + tool_calls u)%nat.
Proof.
  induction t as [|e t IH]; simpl; [reflexivity|].
  destruct e; simpl; now rewrite IH.
Qed.

Lemma registry_get_some tools tool_name func :
  registry_get tools tool_name = Ret (Some func) ->
  exists name, tool_name = VStr name /\ tools name = Some func.
Proof.
  destruct tool_name; simpl; try discriminate.
  intros [= H]. eauto.
Qed.

Lemma geometric_pow (b n : nat) :
  (2 <= b -> geometric b n + 2 <= 2 * b ^ n)%nat.
Proof.
  intros Hb. induction n as [|n IH]; simpl; [lia|]. nia.
Qed.

Section Calls.

Variable tools : registry.
Variable rec : value -> run.
Variable g : nat.
Hypothesis rec_calls :
  forall name func kwargs resp,
    tools name = Some func -> func kwargs = Ret resp ->
    (tool_calls (trace (rec resp)) <= g)%nat.

Lemma process_step_calls result _depth step :
  (tool_calls (trace (process_step tools rec result _depth step)) <= 1 + g)%nat.
Proof.
  unfold process_step, invoke_step.
  destruct step; simpl; try lia.
  destruct (dict_get "tool" fields); simpl; [|lia].
  destruct (truthy v); simpl; [|lia].
  destruct (inject_customer_id result (step_params fields)) as [params|e];
    simpl; [|lia].
  destruct (registry_get tools v) as [[func|]|e] eqn:Hget; simpl; try lia.
  apply registry_get_some in Hget as (name & -> & Hname).
  destruct params as [| | | | |kwargs]; simpl; try lia.
  destruct (dict_has "tool" kwargs); simpl; [lia|].
  destruct (func kwargs) as [resp|e] eqn:Hcall; simpl; [|lia].
  rewrite tool_calls_app.
  pose proof (rec_calls _ _ _ _ Hname Hcall).
  destruct (status (rec resp)); simpl; lia.
Qed.

Lemma run_steps_calls result _depth steps :
  (tool_calls (ltrace (run_steps tools rec result _depth steps))
   <= List.length steps * (1 + g))%nat.
Proof.
  induction steps as [|step rest IH]; simpl; [lia|].
  pose proof (process_step_calls result _depth step).
  destruct (status (process_step tools rec result _depth step));
    cbn [ltrace]; rewrite ?tool_calls_app; lia.
Qed.

Lemma follow_body_calls result _depth :
  (tool_calls (trace (follow_body tools rec result _depth))
   <= List.length (next_steps result) * (1 + g))%nat.
Proof.
  unfold follow_body, next_steps. destruct result; simpl; try lia.
  destruct (dict_get "next_steps" fields) as [v|]; simpl; [|lia].
  destruct (truthy v) eqn:Hv; [|simpl; lia].
  rewrite Hv. cbn [negb].
  destruct v; cbn [py_iter trace]; try (simpl; lia);
    apply run_steps_calls.
Qed.

End Calls.

Lemma follow_calls tools b result max_depth _depth :
  branching_at_most tools b ->
  (List.length (next_steps result) <= b)%nat ->
  (tool_calls (trace (follow tools result max_depth _depth))
   <= geometric b (Z.to_nat (max_depth - _depth)))%nat.
Proof.
  intros Htools.
  remember (Z.to_nat (max_depth - _depth)) as n eqn:Hn.
  revert result _depth Hn.
  induction n as [|n IH]; intros result _depth Hn Hresult.
  - rewrite follow_guard by lia. simpl. lia.
  - rewrite follow_unfold by lia.
    etransitivity.
    + apply follow_body_calls with (g := geometric b n).
      intros name func kwargs resp Hname Hcall.
      apply IH; [lia|]. exact (Htools _ _ _ _ Hname Hcall).
    + simpl. nia.
Qed.

(** C3. On every result, for every registry (one whose answers point back to
    earlier tools included) and every [max_depth], the follower ends: the
    run needs no more nested calls than the levels left below [max_depth],
    and at [_depth >= max_depth] it reports the truncation and stops.  With
    at most [b] entries per answer it makes at most
    [b + b^2 + ... + b^(max_depth - _depth)] tool calls, which is below
    [2 * b^(max_depth - _depth)] from [b = 2] on. *)
Theorem follower_terminates (tools : registry) (result : value)
    (max_depth _depth : Z) :
  let levels := Z.to_nat (max_depth - _depth) in
  let r := follow tools result max_depth _depth in
  status r <> OutOfFuel /\
  (forall fuel, (levels <= fuel)%nat ->
     follow_fuel tools fuel result max_depth _depth = r) /\
  (max_depth <= _depth -> r = mkRun [PrintMaxDepth _depth] result Returned) /\
  (forall b,
     branching_at_most tools b ->
     (List.length (next_steps result) <= b)%nat ->
     (tool_calls (trace r) <= geometric b levels)%nat /\
     (2 <= b -> tool_calls (trace r) <= 2 * b ^ levels)%nat).
Proof.
  intros levels r. split; [apply follow_status|].
  split; [intros fuel Hfuel; now apply follow_fuel_enough|].
  split; [apply follow_guard|].
  intros b Htools Hresult.
  pose proof (follow_calls tools b result max_depth _depth Htools Hresult) as Hc.
  split; [exact Hc|].
  intros Hb. pose proof (geometric_pow b levels Hb). subst levels r. lia.
Qed.

Lemma looping_tools_branching : branching_at_most looping_tools 1.
Proof.
  intros name func kwargs resp. unfold looping_tools.
  destruct (name =? "loop")%string; [|discriminate].
  intros [= <-] [= <-]. simpl. lia.
Qed.

(** A registry whose tool answers with a call of itself: four levels, four
    calls, and the truncation report at the end. *)
Lemma follower_terminates_witness :
  status (follow looping_tools loop_answer 4 0) <> OutOfFuel /\
  follow_fuel looping_tools 9 loop_answer 4 0 = follow looping_tools loop_answer 4 0 /\
  (tool_calls (trace (follow looping_tools loop_answer 4 0)) <= 4)%nat.
Proof.
  pose proof (follower_terminates looping_tools loop_answer 4 0) as H.
  cbv zeta in H. destruct H as (H1 & H2 & _ & H3).
  split; [exact H1|]. split; [apply H2; vm_compute; lia|].
  exact (proj1 (H3 1%nat looping_tools_branching (le_n 1))).
Defined.

Example looping_run :
  map (fun e => match e with
                | CallTool _ _ => "call"
                | PrintMaxDepth _ => "truncated"
                | _ => ""
                end)
      (trace (follow looping_tools loop_answer 2 0))
  = ["" ; "call"; ""; ""; "call"; ""; "truncated"].
Proof. reflexivity. Qed.

(** ** One entry of [next_steps] *)

Lemma inject_effective (result params : dict) :
  inject_customer_id result (VObj params) =
  Ret (VObj (effective_kwargs result params)).
Proof.
  unfold inject_customer_id, effective_kwargs, py_not_in, bind, dict_has.
  destruct (dict_get "customer_id" params); [reflexivity|]. cbn [negb andb].
  now destruct (dict_get "customer_id" result).
Qed.

Lemma inject_cases (result : dict) (params params' : value) :
  inject_customer_id result params = Ret params' ->
  params' = params \/
  exists fields customer_id,
    params = VObj fields /\
    dict_has "customer_id" fields = false /\
    dict_get "customer_id" result = Some customer_id /\
    params' = VObj (dict_set "customer_id" customer_id fields).
Proof.
  unfold inject_customer_id, bind.
  destruct (py_not_in "customer_id" params) as [absent|e] eqn:Hnot;
    [|discriminate].
  destruct (absent && dict_has "customer_id" result) eqn:Hcond.
  - apply andb_prop in Hcond as [-> _].
    destruct (dict_get "customer_id" result) as [customer_id|];
      [|intros [= <-]; now left].
    destruct params; simpl; try discriminate.
    intros [= <-]. right. exists fields, customer_id.
    simpl in Hnot. injection Hnot as Hnot.
    apply negb_true_iff in Hnot. auto.
  - intros [= <-]. now left.
Qed.

Section Entry.

Variable tools : registry.
Variable rec : value -> run.
Variable result : dict.
Variable _depth : Z.

(** The loop body on a tool invocation. *)
Lemma process_invocation fields name params :
  dict_get "tool" fields = Some (VStr name) ->
  name <> "" ->
  step_params fields = VObj params ->
  let kwargs := effective_kwargs result params in
  let step' :=
    VObj (if dict_has "params" fields
          then dict_set "params" (VObj kwargs) fields else fields) in
  process_step tools rec result _depth (VObj fields) =
  match tools name with
  | None => mkRun [PrintUnknownTool (VStr name)] step' Returned
  | Some func =>
      if dict_has "tool" kwargs then
        mkRun [PrintFollowing (VStr name) (VObj kwargs) (_depth + 1);
               PrintError (VStr name) keyword_clash]
              step' Returned
      else
        match func kwargs with
        | Ret resp =>
            mkRun (call_report name kwargs (_depth + 1) resp
                   ++ trace (rec resp) ++ caught (VStr name) (status (rec resp)))
                  step' (after_try (status (rec resp)))
        | Raise e =>
            mkRun [PrintFollowing (VStr name) (VObj kwargs) (_depth + 1);
                   CallTool (VStr name) kwargs;
                   PrintError (VStr name) e]
                  step' Returned
        end
  end.
Proof.
  intros Htool Hname Hparams kwargs step'.
  unfold process_step. rewrite Htool. cbn [truthy].
  destruct (String.eqb_spec name "") as [E|_]; [contradiction|]. cbn [negb].
  unfold invoke_step. rewrite Hparams, inject_effective. cbn [registry_get].
  destruct (tools name) as [func|]; [|reflexivity].
  fold kwargs. destruct (dict_has "tool" kwargs); [reflexivity|].
  now destruct (func kwargs).
Qed.

(** The loop body on an entry that is no tool invocation. *)
Lemma process_human step :
  (forall fields, step = VObj fields ->
     dict_get "tool" fields = None \/
     exists v, dict_get "tool" fields = Some v /\ truthy v = false) ->
  process_step tools rec result _depth step = mkRun [PrintHuman step] step Returned.
Proof.
  intros H. unfold process_step. destruct step; try reflexivity.
  destruct (H fields eq_refl) as [E|(v & E & Hv)]; rewrite E;
    [reflexivity | now rewrite Hv].
Qed.

(** The loop body leaves an entry as it was, or with the parent's
    [customer_id] written into its [params]. *)
Lemma process_step_frame step :
  entry_frame (dict_get "customer_id" result) step
    (store (process_step tools rec result _depth step)).
Proof.
  unfold process_step. destruct step; try (now left).
  destruct (dict_get "tool" fields) as [tool_name|]; [|now left].
  destruct (truthy tool_name); [|now left].
  unfold invoke_step.
  destruct (inject_customer_id result (step_params fields)) as [params|e]
    eqn:Hinject; [|now left].
  assert (Hstore :
    entry_frame (dict_get "customer_id" result) (VObj fields)
      (VObj (if dict_has "params" fields
             then dict_set "params" params fields else fields))).
  { unfold dict_has, step_params in *.
    destruct (dict_get "params" fields) as [p0|] eqn:Hp; [|now left].
    apply inject_cases in Hinject as [->|(pf & c & -> & Hpf & Hc & ->)].
    - left. now rewrite dict_set_same.
    - right. exists fields, pf, c. auto. }
  destruct (registry_get tools tool_name) as [[func|]|e]; try exact Hstore.
  destruct params as [| | | | |kwargs]; try exact Hstore.
  destruct (dict_has "tool" kwargs); [exact Hstore|].
  destruct (func kwargs); exact Hstore.
Qed.

Lemma run_steps_frame steps :
  Forall2 (entry_frame (dict_get "customer_id" result)) steps
    (lsteps (run_steps tools rec result _depth steps)).
Proof.
  induction steps as [|step rest IH]; simpl; [constructor|].
  pose proof (process_step_frame step) as H.
  assert (Hrest : Forall2 (entry_frame (dict_get "customer_id" result)) rest rest).
  { clear. induction rest; constructor; [now left | assumption]. }
  destruct (status (process_step tools rec result _depth step));
    cbn [lsteps]; constructor; assumption.
Qed.

End Entry.

(** ** The properties of the follower *)

(** A resolved tool whose keywords can be bound and that answers: its
    report, then its whole sub-chain, then the entries after it, whatever
    the sub-chain did. *)
Lemma answered_call_then_siblings (tools : registry) (fields : dict)
    (max_depth _depth : Z) (pre post : list value) (step : value)
    (name : string) (params : dict) (func : tool) (resp : value) :
  _depth < max_depth ->
  dict_get "next_steps" fields = Some (VArr (pre ++ step :: post)) ->
  lstatus (follow_steps tools max_depth _depth fields pre) = Returned ->
  tool_invocation step name params ->
  tools name = Some func ->
  dict_has "tool" (effective_kwargs fields params) = false ->
  func (effective_kwargs fields params) = Ret resp ->
  trace (follow tools (VObj fields) max_depth _depth) =
    (ltrace (follow_steps tools max_depth _depth fields pre)
     ++ (call_report name (effective_kwargs fields params) (_depth + 1) resp
         ++ sub_chain tools max_depth _depth name resp)
     ++ ltrace (follow_steps tools max_depth _depth fields post))%list /\
  status (follow tools (VObj fields) max_depth _depth) =
    lstatus (follow_steps tools max_depth _depth fields post).
Proof.
  intros Hd Hsteps Hpre (sf & -> & Htool & Hname & Hparams) Hfunc Hbound Hcall.
  pose proof (process_invocation tools
                (fun resp => follow tools resp max_depth (_depth + 1))
                fields _depth sf name params Htool Hname Hparams) as Hstep.
  cbv zeta in Hstep. rewrite Hfunc, Hbound, Hcall in Hstep.
  destruct (follow_at tools fields pre (VObj sf) post max_depth _depth
              Hd Hsteps Hpre) as [Ht Hs].
  - rewrite Hstep. cbn [status].
    pose proof (follow_status tools resp max_depth (_depth + 1)) as Hfuel.
    now destruct (status (follow tools resp max_depth (_depth + 1))).
  - rewrite Hstep in Ht. cbn [trace] in Ht. split; assumption.
Qed.

(** C4, where the code misses it.  The parent has [customer_id] "C1" and its
    only entry calls [explain_risk] with the [params] [{tool: "x"}], which
    lack [customer_id].  The follower extends them with the parent's
    [customer_id] and announces the call with the extended [params], but the
    key [tool] cannot be passed as a keyword of [_call_tool]: the named tool
    is not invoked, and the follower reports the TypeError of the call. *)
Theorem tool_keyword_stops_the_call :
  trace (follow_next_steps
           (VObj [("customer_id", VStr "C1");
                  ("next_steps",
                   VArr [VObj [("tool", VStr "explain_risk");
                               ("params", VObj [("tool", VStr "x")])]])])
           4 0) =
    [PrintFollowing (VStr "explain_risk")
       (VObj [("tool", VStr "x"); ("customer_id", VStr "C1")]) 1;
     PrintError (VStr "explain_risk")
       (Exn "TypeError" "_call_tool() got multiple values for argument 'tool'")] /\
  tool_calls
    (trace (follow_next_steps
              (VObj [("customer_id", VStr "C1");
                     ("next_steps",
                      VArr [VObj [("tool", VStr "explain_risk");
                                  ("params", VObj [("tool", VStr "x")])]])])
              4 0)) = 0%nat.
Proof. split; reflexivity. Qed.

(** C5. The entries are processed in their order, and a tool invocation's
    sub-chain is complete before the next entry: for
    [next_steps = [human, toolA, human2, toolB]], where the calls of [toolA]
    and [toolB] answer, the reports are [human], [toolA]'s call and answer,
    [toolA]'s sub-chain, [human2], [toolB]'s call and answer, [toolB]'s
    sub-chain. *)
Theorem siblings_in_order (tools : registry) (fields : dict)
    (max_depth _depth : Z) (human human2 : string) (stepA stepB : value)
    (toolA toolB : string) (paramsA paramsB : dict) (funcA funcB : tool)
    (respA respB : value) :
  _depth < max_depth ->
  dict_get "next_steps" fields =
    Some (VArr [VStr human; stepA; VStr human2; stepB]) ->
  tool_invocation stepA toolA paramsA ->
  tool_invocation stepB toolB paramsB ->
  tools toolA = Some funcA ->
  tools toolB = Some funcB ->
  dict_has "tool" (effective_kwargs fields paramsA) = false ->
  dict_has "tool" (effective_kwargs fields paramsB) = false ->
  funcA (effective_kwargs fields paramsA) = Ret respA ->
  funcB (effective_kwargs fields paramsB) = Ret respB ->
  trace (follow tools (VObj fields) max_depth _depth) =
    ([PrintHuman (VStr human)]
     ++ call_report toolA (effective_kwargs fields paramsA) (_depth + 1) respA
     ++ sub_chain tools max_depth _depth toolA respA
     ++ [PrintHuman (VStr human2)]
     ++ call_report toolB (effective_kwargs fields paramsB) (_depth + 1) respB
     ++ sub_chain tools max_depth _depth toolB respB)%list /\
  status (follow tools (VObj fields) max_depth _depth) = Returned.
Proof.
  intros Hd Hsteps HA HB HfA HfB HbA HbB HcA HcB.
  destruct (answered_call_then_siblings tools fields max_depth _depth
              [VStr human] [VStr human2; stepB] stepA toolA paramsA funcA respA
              Hd Hsteps eq_refl HA HfA HbA HcA) as [Ht Hs].
  destruct HB as (sf & -> & Htool & Hname & Hparams).
  pose proof (process_invocation tools
                (fun resp => follow tools resp max_depth (_depth + 1))
                fields _depth sf toolB paramsB Htool Hname Hparams) as Hstep.
  cbv zeta in Hstep. rewrite HfB, HbB, HcB in Hstep.
  pose proof (follow_status tools respB max_depth (_depth + 1)) as Hfuel.
  assert (Hafter :
    after_try (status (follow tools respB max_depth (_depth + 1))) = Returned)
    by now destruct (status (follow tools respB max_depth (_depth + 1))).
  rewrite Ht, Hs. unfold follow_steps. cbn [run_steps].
  rewrite Hstep. cbn [process_step status trace ltrace lstatus]. rewrite Hafter.
  cbn [ltrace lstatus]. split; [|reflexivity].
  unfold sub_chain. cbn [app]. now rewrite !app_nil_r, <- !app_assoc.
Qed.

(** The chain of the source's own tools: a note, [explain_risk], a note,
    [generate_compliance_report]. *)
Lemma siblings_in_order_witness :
  exists respA respB,
    explain_risk (VStr "C1") = Ret respA /\
    generate_compliance_report (VStr "C1") = Ret respB /\
    trace (follow_next_steps
             (VObj [("customer_id", VStr "C1");
                    ("next_steps",
                     VArr [VStr "review";
                           tool_step "explain_risk" (VStr "C1");
                           VStr "archive";
                           VObj [("tool", VStr "generate_compliance_report")]])])
             4 0) =
    ([PrintHuman (VStr "review")]
     ++ call_report "explain_risk" [("customer_id", VStr "C1")] 1 respA
     ++ sub_chain tool_map 4 0 "explain_risk" respA
     ++ [PrintHuman (VStr "archive")]
     ++ call_report "generate_compliance_report" [("customer_id", VStr "C1")] 1 respB
     ++ sub_chain tool_map 4 0 "generate_compliance_report" respB)%list.
Proof.
  do 2 eexists. split; [reflexivity|]. split; [reflexivity|].
  refine (proj1 (siblings_in_order tool_map
            [("customer_id", VStr "C1");
             ("next_steps",
              VArr [VStr "review";
                    tool_step "explain_risk" (VStr "C1");
                    VStr "archive";
                    VObj [("tool", VStr "generate_compliance_report")]])]
            4 0 "review" "archive"
            (tool_step "explain_risk" (VStr "C1"))
            (VObj [("tool", VStr "generate_compliance_report")])
            "explain_risk" "generate_compliance_report"
            [("customer_id", VStr "C1")] []
            (call_with_customer_id explain_risk)
            (call_with_customer_id generate_compliance_report)
            _ _ _ _ _ _ _ _ _ _ _ _));
    try reflexivity;
    eexists; repeat split; discriminate.
Defined.

(** C6, as the code has it. The follower writes the injected [customer_id]
    into the [params] dict the entry holds.  After the call the result is
    what it was, except that a tool invocation's [params] dict that had no
    [customer_id] may have received the parent's; nothing else of any entry
    and nothing else of the result has changed. *)
Theorem params_change_only_by_injection (tools : registry) (result : value)
    (max_depth _depth : Z) :
  store (follow tools result max_depth _depth) = result \/
  exists fields steps steps',
    result = VObj fields /\
    dict_get "next_steps" fields = Some (VArr steps) /\
    store (follow tools result max_depth _depth) =
      VObj (dict_set "next_steps" (VArr steps') fields) /\
    Forall2 (entry_frame (dict_get "customer_id" fields)) steps steps'.
Proof.
  destruct (Z.leb_spec max_depth _depth) as [Hle|Hlt].
  - left. now rewrite follow_guard.
  - rewrite follow_unfold by assumption. unfold follow_body.
    destruct result; try (now left).
    destruct (dict_get "next_steps" fields) as [v|] eqn:Hsteps; [|now left].
    destruct (truthy v) eqn:Hv; [|now left]. rewrite Hv. cbn [negb].
    destruct v; cbn [py_iter store]; try (now left).
    right. exists fields, items, (lsteps
      (run_steps tools (fun resp => follow tools resp max_depth (_depth + 1))
         fields _depth items)).
    split; [reflexivity|]. split; [exact Hsteps|].
    split; [reflexivity | apply run_steps_frame].
Qed.

(** C6, as the specification has it, fails: the empty [params] of the entry
    hold the parent's [customer_id] once [follow_next_steps] has returned. *)
Lemma injection_writes_into_params :
  status (follow_next_steps bare_invocation 4 0) = Returned /\
  entry_params bare_invocation = [Some (VObj [])] /\
  entry_params (store (follow_next_steps bare_invocation 4 0)) =
    [Some (VObj [("customer_id", VStr "C1")])] /\
  entry_params (store (follow_next_steps bare_invocation 4 0)) <>
    entry_params bare_invocation.
Proof.
  repeat split; try reflexivity.
  vm_compute. discriminate.
Qed.

(** C7. A tool invocation whose name the registry does not have is reported
    as an unknown tool, with no call and no nested run, and the follower
    goes on with the entries after it. *)
Theorem unknown_tool_is_skipped (tools : registry) (fields : dict)
    (max_depth _depth : Z) (pre post : list value) (step : value)
    (name : string) (params : dict) :
  _depth < max_depth ->
  dict_get "next_steps" fields = Some (VArr (pre ++ step :: post)) ->
  lstatus (follow_steps tools max_depth _depth fields pre) = Returned ->
  tool_invocation step name params ->
  tools name = None ->
  trace (follow tools (VObj fields) max_depth _depth) =
    (ltrace (follow_steps tools max_depth _depth fields pre)
     ++ [PrintUnknownTool (VStr name)]
     ++ ltrace (follow_steps tools max_depth _depth fields post))%list /\
  status (follow tools (VObj fields) max_depth _depth) =
    lstatus (follow_steps tools max_depth _depth fields post).
Proof.
  intros Hd Hsteps Hpre (sf & -> & Htool & Hname & Hparams) Hnone.
  pose proof (process_invocation tools
                (fun resp => follow tools resp max_depth (_depth + 1))
                fields _depth sf name params Htool Hname Hparams) as Hstep.
  cbv zeta in Hstep. rewrite Hnone in Hstep.
  destruct (follow_at tools fields pre (VObj sf) post max_depth _depth
              Hd Hsteps Hpre) as [Ht Hs].
  - now rewrite Hstep.
  - rewrite Hstep in Ht. split; assumption.
Qed.

(** The source's registry has no tool [X]: the entries around the step are
    reported, the step as unknown, and the call returns. *)
Lemma unknown_tool_is_skipped_witness :
  trace (follow_next_steps
           (VObj [("customer_id", VStr "C1");
                  ("next_steps",
                   VArr [VStr "before";
                         VObj [("tool", VStr "X"); ("params", VObj [])];
                         VStr "after"])])
           4 0) =
    [PrintHuman (VStr "before");
     PrintUnknownTool (VStr "X");
     PrintHuman (VStr "after")] /\
  status (follow_next_steps
            (VObj [("customer_id", VStr "C1");
                   ("next_steps",
                    VArr [VStr "before";
                          VObj [("tool", VStr "X"); ("params", VObj [])];
                          VStr "after"])])
            4 0) = Returned.
Proof.
  refine (unknown_tool_is_skipped tool_map
            [("customer_id", VStr "C1");
             ("next_steps",
              VArr [VStr "before";
                    VObj [("tool", VStr "X"); ("params", VObj [])];
                    VStr "after"])]
            4 0 [VStr "before"] [VStr "after"]
            (VObj [("tool", VStr "X"); ("params", VObj [])])
            "X" [] _ _ _ _ _);
    try reflexivity.
  eexists. repeat split; discriminate.
Defined.

(** C8. When the call of a resolved tool raises, the follower catches the
    exception, reports it with the tool's name, and goes on with the entries
    after it: so when the tool itself raises, and so when the call raises
    before the tool is entered because [params] hold the key [tool].  When
    the tool answers, whatever its sub-chain does, an exception raised there
    included, the entries after it are processed all the same. *)
Theorem tool_failure_is_caught (tools : registry) (fields : dict)
    (max_depth _depth : Z) (pre post : list value) (step : value)
    (name : string) (params : dict) (func : tool) :
  _depth < max_depth ->
  dict_get "next_steps" fields = Some (VArr (pre ++ step :: post)) ->
  lstatus (follow_steps tools max_depth _depth fields pre) = Returned ->
  tool_invocation step name params ->
  tools name = Some func ->
  (forall e,
     dict_has "tool" (effective_kwargs fields params) = false ->
     func (effective_kwargs fields params) = Raise e ->
     trace (follow tools (VObj fields) max_depth _depth) =
       (ltrace (follow_steps tools max_depth _depth fields pre)
        ++ [PrintFollowing (VStr name)
              (VObj (effective_kwargs fields params)) (_depth + 1);
            CallTool (VStr name) (effective_kwargs fields params);
            PrintError (VStr name) e]
        ++ ltrace (follow_steps tools max_depth _depth fields post))%list /\
     status (follow tools (VObj fields) max_depth _depth) =
       lstatus (follow_steps tools max_depth _depth fields post)) /\
  (dict_has "tool" (effective_kwargs fields params) = true ->
   trace (follow tools (VObj fields) max_depth _depth) =
     (ltrace (follow_steps tools max_depth _depth fields pre)
      ++ [PrintFollowing (VStr name)
            (VObj (effective_kwargs fields params)) (_depth + 1);
          PrintError (VStr name) keyword_clash]
      ++ ltrace (follow_steps tools max_depth _depth fields post))%list /\
   status (follow tools (VObj fields) max_depth _depth) =
     lstatus (follow_steps tools max_depth _depth fields post)) /\
  (forall resp,
     dict_has "tool" (effective_kwargs fields params) = false ->
     func (effective_kwargs fields params) = Ret resp ->
     trace (follow tools (VObj fields) max_depth _depth) =
       (ltrace (follow_steps tools max_depth _depth fields pre)
        ++ (call_report name (effective_kwargs fields params) (_depth + 1) resp
            ++ sub_chain tools max_depth _depth name resp)
        ++ ltrace (follow_steps tools max_depth _depth fields post))%list /\
     status (follow tools (VObj fields) max_depth _depth) =
       lstatus (follow_steps tools max_depth _depth fields post)).
Proof.
  intros Hd Hsteps Hpre Hinv Hfunc.
  assert (Hstep :
    forall sf, step = VObj sf ->
      dict_get "tool" sf = Some (VStr name) -> name <> "" ->
      step_params sf = VObj params ->
      forall failure,
        process_step tools
          (fun resp => follow tools resp max_depth (_depth + 1))
          fields _depth (VObj sf) =
        mkRun (PrintFollowing (VStr name)
                 (VObj (effective_kwargs fields params)) (_depth + 1) :: failure)
          (VObj (if dict_has "params" sf
                 then dict_set "params" (VObj (effective_kwargs fields params)) sf
                 else sf))
          Returned ->
        trace (follow tools (VObj fields) max_depth _depth) =
          (ltrace (follow_steps tools max_depth _depth fields pre)
           ++ (PrintFollowing (VStr name)
                 (VObj (effective_kwargs fields params)) (_depth + 1) :: failure)
           ++ ltrace (follow_steps tools max_depth _depth fields post))%list /\
        status (follow tools (VObj fields) max_depth _depth) =
          lstatus (follow_steps tools max_depth _depth fields post)).
  { intros sf -> Htool Hname Hparams failure Hrun.
    destruct (follow_at tools fields pre (VObj sf) post max_depth _depth
                Hd Hsteps Hpre) as [Ht Hs].
    - now rewrite Hrun.
    - rewrite Hrun in Ht. split; assumption. }
  split; [|split].
  - intros e Hbound Hraise.
    destruct Hinv as (sf & Hsf & Htool & Hname & Hparams).
    apply (Hstep sf Hsf Htool Hname Hparams
             [CallTool (VStr name) (effective_kwargs fields params);
              PrintError (VStr name) e]).
    pose proof (process_invocation tools
                  (fun resp => follow tools resp max_depth (_depth + 1))
                  fields _depth sf name params Htool Hname Hparams) as Hrun.
    cbv zeta in Hrun. now rewrite Hfunc, Hbound, Hraise in Hrun.
  - intros Hclash.
    destruct Hinv as (sf & Hsf & Htool & Hname & Hparams).
    apply (Hstep sf Hsf Htool Hname Hparams
             [PrintError (VStr name) keyword_clash]).
    pose proof (process_invocation tools
                  (fun resp => follow tools resp max_depth (_depth + 1))
                  fields _depth sf name params Htool Hname Hparams) as Hrun.
    cbv zeta in Hrun. now rewrite Hfunc, Hclash in Hrun.
  - intros resp Hbound Hcall.
    exact (answered_call_then_siblings tools fields max_depth _depth pre post
             step name params func resp Hd Hsteps Hpre Hinv Hfunc Hbound Hcall).
Qed.

(** [explain_risk] raises on the identifier 5, which has no [lower]: the
    failure is reported and the entry after the step is processed. *)
Lemma tool_failure_is_caught_witness :
  trace (follow_next_steps
           (VObj [("next_steps",
                   VArr [tool_step "explain_risk" (VNum 5); VStr "after"])])
           4 0) =
    [PrintFollowing (VStr "explain_risk") (VObj [("customer_id", VNum 5)]) 1;
     CallTool (VStr "explain_risk") [("customer_id", VNum 5)];
     PrintError (VStr "explain_risk")
       (Exn "AttributeError" "'int' object has no attribute 'lower'");
     PrintHuman (VStr "after")] /\
  status (follow_next_steps
            (VObj [("next_steps",
                    VArr [tool_step "explain_risk" (VNum 5); VStr "after"])])
            4 0) = Returned.
Proof.
  refine (proj1 (tool_failure_is_caught tool_map
            [("next_steps",
              VArr [tool_step "explain_risk" (VNum 5); VStr "after"])]
            4 0 [] [VStr "after"]
            (tool_step "explain_risk" (VNum 5))
            "explain_risk" [("customer_id", VNum 5)]
            (call_with_customer_id explain_risk) _ _ _ _ _)
            (Exn "AttributeError" "'int' object has no attribute 'lower'") _ _);
    try reflexivity.
  eexists. repeat split; discriminate.
Defined.

(** C10. An entry that is a dict without ["tool"], or with a falsy ["tool"]
    such as the empty string, is reported as a human action: no unknown-tool
    report, no call, no nested run; the follower goes on with the entries
    after it. *)
Theorem falsy_tool_is_human (tools : registry) (fields : dict)
    (max_depth _depth : Z) (pre post : list value) (entry : dict) :
  _depth < max_depth ->
  dict_get "next_steps" fields = Some (VArr (pre ++ VObj entry :: post)) ->
  lstatus (follow_steps tools max_depth _depth fields pre) = Returned ->
  (dict_get "tool" entry = None \/
   exists v, dict_get "tool" entry = Some v /\ truthy v = false) ->
  trace (follow tools (VObj fields) max_depth _depth) =
    (ltrace (follow_steps tools max_depth _depth fields pre)
     ++ [PrintHuman (VObj entry)]
     ++ ltrace (follow_steps tools max_depth _depth fields post))%list /\
  status (follow tools (VObj fields) max_depth _depth) =
    lstatus (follow_steps tools max_depth _depth fields post).
Proof.
  intros Hd Hsteps Hpre Hfalsy.
  assert (Hstep :
    process_step tools (fun resp => follow tools resp max_depth (_depth + 1))
      fields _depth (VObj entry) =
    mkRun [PrintHuman (VObj entry)] (VObj entry) Returned).
  { apply process_human. intros ? [= <-]. exact Hfalsy. }
  destruct (follow_at tools fields pre (VObj entry) post max_depth _depth
              Hd Hsteps Hpre) as [Ht Hs].
  - now rewrite Hstep.
  - rewrite Hstep in Ht. split; assumption.
Qed.

(** An entry whose ["tool"] is the empty string, next to one that names a
    tool of the registry. *)
Lemma falsy_tool_is_human_witness :
  trace (follow_next_steps
           (VObj [("next_steps",
                   VArr [VObj [("tool", VStr ""); ("params", VObj [])];
                         VStr "after"])])
           4 0) =
    [PrintHuman (VObj [("tool", VStr ""); ("params", VObj [])]);
     PrintHuman (VStr "after")] /\
  status (follow_next_steps
            (VObj [("next_steps",
                    VArr [VObj [("tool", VStr ""); ("params", VObj [])];
                          VStr "after"])])
            4 0) = Returned.
Proof.
  refine (falsy_tool_is_human tool_map
            [("next_steps",
              VArr [VObj [("tool", VStr ""); ("params", VObj [])];
                    VStr "after"])]
            4 0 [] [VStr "after"]
            [("tool", VStr ""); ("params", VObj [])] _ _ _ _);
    try reflexivity.
  right. eexists. split; reflexivity.
Defined.

(** ** The responder and the follower on the specification's examples *)

Example report_id_of_CUST_1 :
  exists report,
    generate_compliance_report (VStr "CUST-1") = Ret report /\
    field "report_id" report = Some (VStr "RPT-CUST-1-001").
Proof. eexists. split; reflexivity. Qed.

Example impostor_is_positive :
  _infer_scenario_for_customer (VStr "Impostor") = Ret "positive".
Proof. reflexivity. Qed.

Example null_identifier_is_positive :
  _infer_scenario_for_customer VNull = Ret "positive".
Proof. reflexivity. Qed.

(** The calls the follower makes on the profile of a negative customer, in
    order, with the default [max_depth] of 4. *)
Example calls_from_negative_profile :
  exists profile,
    get_customer_profile (VStr "CUST-NEG") = Ret profile /\
    flat_map (fun e => match e with
                       | CallTool (VStr name) _ => [name]
                       | _ => []
                       end)
      (trace (follow_next_steps profile 4 0))
    = ["get_risk_score"; "explain_risk"; "generate_compliance_report";
       "generate_compliance_report"; "generate_compliance_report"].
Proof. eexists. split; reflexivity. Qed.

(** ** Further properties of the scenario responder *)

Lemma tool_map_cases (name : string) (func : tool) :
  tool_map name = Some func ->
  (name = "get_customer_profile" /\ func = call_with_customer_id get_customer_profile) \/
  (name = "get_risk_score" /\ func = call_with_customer_id get_risk_score) \/
  (name = "explain_risk" /\ func = call_with_customer_id explain_risk) \/
  (name = "generate_compliance_report" /\
   func = call_with_customer_id generate_compliance_report).
Proof.
  unfold tool_map.
  destruct (String.eqb_spec name "get_customer_profile") as [->|_];
    [intros [= <-]; auto|].
  destruct (String.eqb_spec name "get_risk_score") as [->|_];
    [intros [= <-]; auto|].
  destruct (String.eqb_spec name "explain_risk") as [->|_];
    [intros [= <-]; auto|].
  destruct (String.eqb_spec name "generate_compliance_report") as [->|_];
    [intros [= <-]; auto 6 | discriminate].
Qed.

Lemma call_with_customer_id_single (func : value -> py value) (customer_id : value) :
  call_with_customer_id func [("customer_id", customer_id)] = func customer_id.
Proof. reflexivity. Qed.

Ltac chain_entries :=
  repeat (apply Forall_cons;
          [ first [ left; eexists; reflexivity
                  | right; do 2 eexists; split; [reflexivity|];
                    split; [reflexivity | cbn; lia] ] | ]);
  apply Forall_nil.

Ltac chain_document_by_cases :=
  do 2 eexists; split; [reflexivity|]; split; [reflexivity|];
  split; [reflexivity | chain_entries].

(** Once the scenario is known, the answers are documents of the chain. *)
Lemma responders_chain_from_scenario (customer_id : value) (scenario : string) :
  _infer_scenario_for_customer customer_id = Ret scenario ->
  (exists doc, get_customer_profile customer_id = Ret doc /\
               chain_document customer_id 3 doc) /\
  (exists doc, get_risk_score customer_id = Ret doc /\
               chain_document customer_id 2 doc) /\
  (exists doc, explain_risk customer_id = Ret doc /\
               chain_document customer_id 1 doc) /\
  (exists doc, generate_compliance_report customer_id = Ret doc /\
               chain_document customer_id 0 doc).
Proof.
  intros Hscenario.
  unfold get_customer_profile, get_risk_score, explain_risk,
    generate_compliance_report.
  rewrite Hscenario, negative_score, positive_score. cbn [bind].
  destruct (scenario =? "negative")%string;
    (split; [|split; [|split]]);
    (eexists; split; [reflexivity|]); cbn;
    chain_document_by_cases.
Qed.

(** X1. What a registered tool answers when called with the customer's
    identifier is a document whose every entry is a note or the call of a
    registered tool, with that identifier as its only parameter, that starts
    a strictly shorter chain. *)
Theorem answers_stay_in_the_registry (name : string) (func : tool)
    (customer_id doc : value) :
  tool_map name = Some func ->
  func [("customer_id", customer_id)] = Ret doc ->
  chain_document customer_id (rank name) doc.
Proof.
  intros Hname Hcall.
  assert (Hscenario : exists scenario,
             _infer_scenario_for_customer customer_id = Ret scenario).
  { destruct (_infer_scenario_for_customer customer_id) as [scenario|e] eqn:E;
      [eauto|].
    exfalso.
    destruct (tool_map_cases _ _ Hname)
      as [[_ ->]|[[_ ->]|[[_ ->]|[_ ->]]]];
      rewrite call_with_customer_id_single in Hcall;
      unfold get_customer_profile, get_risk_score, explain_risk,
        generate_compliance_report in Hcall;
      rewrite E in Hcall; discriminate Hcall. }
  destruct Hscenario as [scenario Hscenario].
  destruct (responders_chain_from_scenario customer_id scenario Hscenario)
    as ((d3 & E3 & H3) & (d2 & E2 & H2) & (d1 & E1 & H1) & (d0 & E0 & H0)).
  destruct (tool_map_cases _ _ Hname)
    as [[-> ->]|[[-> ->]|[[-> ->]|[-> ->]]]];
    rewrite call_with_customer_id_single in Hcall; cbn [rank String.eqb Ascii.eqb Bool.eqb];
    congruence.
Qed.

Lemma answers_stay_in_the_registry_witness :
  exists doc,
    get_risk_score (VStr "CUST-NEG") = Ret doc /\
    chain_document (VStr "CUST-NEG") 2 doc.
Proof.
  eexists. split; [reflexivity|].
  apply (answers_stay_in_the_registry "get_risk_score"
           (call_with_customer_id get_risk_score) (VStr "CUST-NEG"));
    reflexivity.
Defined.

Lemma registry_answers_str (name : string) (func : tool) (id : string) :
  tool_map name = Some func ->
  name <> "" /\
  exists doc,
    func [("customer_id", VStr id)] = Ret doc /\
    chain_document (VStr id) (rank name) doc.
Proof.
  intros Hname.
  destruct (responders_chain_from_scenario (VStr id) _ (infer_scenario_str id))
    as (H3 & H2 & H1 & H0).
  destruct (tool_map_cases _ _ Hname)
    as [[-> ->]|[[-> ->]|[[-> ->]|[-> ->]]]];
    (split; [discriminate|]); rewrite call_with_customer_id_single;
    assumption.
Qed.

Section CleanChains.

Variable id : string.
Variables max_depth _depth : Z.
Variable k : nat.
Variable fields : dict.

(** What is known of the follower on the documents of shorter chains. *)
Hypothesis shorter :
  forall k' doc,
    (k' < k)%nat ->
    chain_document (VStr id) k' doc ->
    let r := follow tool_map doc max_depth (_depth + 1) in
    status r = Returned /\
    existsb is_failure (trace r) = false /\
    ((k' < Z.to_nat (max_depth - (_depth + 1)))%nat ->
     existsb is_truncation (trace r) = false).

Lemma clean_loop (steps : list value) :
  Forall (chain_entry (VStr id) k) steps ->
  let l := follow_steps tool_map max_depth _depth fields steps in
  lstatus l = Returned /\
  lsteps l = steps /\
  existsb is_failure (ltrace l) = false /\
  ((k < Z.to_nat (max_depth - _depth))%nat ->
   existsb is_truncation (ltrace l) = false).
Proof.
  unfold follow_steps.
  induction 1 as [|step rest Hstep _ IH]; [cbn; auto|].
  destruct IH as (IHs & IHl & IHf & IHt).
  destruct Hstep as [[note ->]|(name & func & -> & Hname & Hrank)].
  - cbn [run_steps process_step status trace store ltrace lsteps lstatus app existsb
         is_failure is_truncation orb].
    rewrite IHl. auto.
  - destruct (registry_answers_str name func id Hname)
      as (Hne & doc & Hcall & Hdoc).
    pose proof (process_invocation tool_map
                  (fun resp => follow tool_map resp max_depth (_depth + 1))
                  fields _depth
                  [("tool", VStr name);
                   ("params", VObj [("customer_id", VStr id)])]
                  name [("customer_id", VStr id)] eq_refl Hne eq_refl)
      as Hrun.
    cbv zeta in Hrun.
    change (effective_kwargs fields [("customer_id", VStr id)])
      with [("customer_id", VStr id)] in Hrun.
    change (dict_has "tool" [("customer_id", VStr id)]) with false in Hrun.
    rewrite Hname, Hcall in Hrun.
    destruct (shorter (rank name) doc Hrank Hdoc) as (Hs & Hf & Ht).
    cbn [run_steps]. unfold tool_step. rewrite Hrun.
    cbn [status trace store]. rewrite Hs.
    cbn [after_try caught ltrace lsteps lstatus].
    rewrite IHl, app_nil_r, !existsb_app, Hf, IHf.
    repeat split; try reflexivity; try assumption.
    intros Hk. rewrite Ht by lia. now rewrite IHt.
Qed.

End CleanChains.

Lemma follow_chain_document (id : string) (k : nat)
    (doc : value) (max_depth _depth : Z) :
  chain_document (VStr id) k doc ->
  let r := follow_next_steps doc max_depth _depth in
  status r = Returned /\
  store r = doc /\
  existsb is_failure (trace r) = false /\
  ((k < Z.to_nat (max_depth - _depth))%nat ->
   existsb is_truncation (trace r) = false).
Proof.
  unfold follow_next_steps.
  revert doc _depth.
  induction k as [k IH] using lt_wf_ind.
  intros doc _depth (fields & steps & -> & Hid & Hsteps & Hentries).
  destruct (Z.leb_spec max_depth _depth) as [Hle|Hlt].
  - rewrite follow_guard by assumption. cbn.
    repeat split; try reflexivity. lia.
  - destruct steps as [|step rest].
    + rewrite follow_unfold by assumption. unfold follow_body.
      rewrite Hsteps. cbn. auto.
    + rewrite (follow_list tool_map fields (step :: rest) max_depth _depth
                 Hlt Hsteps) by discriminate.
      assert (Hshorter :
        forall k' doc',
          (k' < k)%nat ->
          chain_document (VStr id) k' doc' ->
          let r := follow tool_map doc' max_depth (_depth + 1) in
          status r = Returned /\
          existsb is_failure (trace r) = false /\
          ((k' < Z.to_nat (max_depth - (_depth + 1)))%nat ->
           existsb is_truncation (trace r) = false)).
      { intros k' doc' Hk' Hdoc'.
        destruct (IH k' Hk' doc' (_depth + 1) Hdoc') as (H1 & _ & H3 & H4).
        cbv zeta. auto. }
      destruct (clean_loop id max_depth _depth k fields Hshorter
                  (step :: rest) Hentries) as (Hs & Hl & Hf & Ht).
      cbv zeta. cbn [status store trace]. rewrite Hl.
      rewrite (dict_set_same _ _ _ Hsteps). auto.
Qed.

(** X2. On a document of the responders, for every identifier and every
    [max_depth], the follower returns, reports no unknown tool and no error,
    and leaves the document as it was; when [max_depth] leaves more levels
    than the chain is long, it reports no truncation either. *)
Theorem responder_chains_are_followed_cleanly (id : string) (k : nat)
    (doc : value) (max_depth _depth : Z) :
  chain_document (VStr id) k doc ->
  let r := follow_next_steps doc max_depth _depth in
  status r = Returned /\
  store r = doc /\
  existsb is_failure (trace r) = false /\
  ((k < Z.to_nat (max_depth - _depth))%nat ->
   existsb is_truncation (trace r) = false).
Proof. exact (follow_chain_document id k doc max_depth _depth). Qed.

(** The profile of every customer is followed to the end with the default
    [max_depth] of 4. *)
Lemma responder_chains_are_followed_cleanly_witness :
  exists profile,
    get_customer_profile (VStr "CUST-NEG") = Ret profile /\
    status (follow_next_steps profile 4 0) = Returned /\
    store (follow_next_steps profile 4 0) = profile /\
    existsb is_failure (trace (follow_next_steps profile 4 0)) = false /\
    existsb is_truncation (trace (follow_next_steps profile 4 0)) = false.
Proof.
  eexists. split; [reflexivity|].
  destruct (responder_chains_are_followed_cleanly "CUST-NEG" 3
              (VObj
                 [("customer_id", VStr "CUST-NEG"); ("name", VStr "ACME Corp");
                  ("country", VStr "US");
                  ("incorporation_date", VStr "2010-07-16");
                  ("industry", VStr "Financial Services");
                  ("contacts",
                   VArr [VObj [("name", VStr "Jane Doe");
                               ("role", VStr "Compliance Officer");
                               ("email", VStr "jane.doe@example.com")]]);
                  ("status", VStr "under_review");
                  ("risk_profile", VStr "high");
                  ("notes",
                   VStr "Potential sanctions exposure and anomalous transactions detected");
                  ("next_steps",
                   VArr [VStr "Collect additional KYC";
                         VStr "Enhanced monitoring";
                         VStr "Escalate to AML officer";
                         tool_step "get_risk_score" (VStr "CUST-NEG");
                         tool_step "generate_compliance_report" (VStr "CUST-NEG")])])
              4 0) as (H1 & H2 & H3 & H4).
  - chain_document_by_cases.
  - split; [exact H1|]. split; [exact H2|]. split; [exact H3|].
    apply H4. cbn. lia.
Defined.

(** *** The documents of one customer *)

Lemma call_function_tool (body : value -> py value) (customer_id : value) :
  _call_tool (function_tool body) [customer_id] [] = body customer_id.
Proof.
  unfold _call_tool, function_tool, call_and_await. cbn.
  now destruct (body customer_id).
Qed.

Lemma four_documents_direct (customer_id : value) :
  four_documents customer_id =
  (profile <- get_customer_profile customer_id ;;
   score <- get_risk_score customer_id ;;
   explanation <- explain_risk customer_id ;;
   report <- generate_compliance_report customer_id ;;
   Ret (profile, score, explanation, report)).
Proof. unfold four_documents. now rewrite !call_function_tool. Qed.

(** The documents once the scenario is known. *)
Lemma four_documents_from_scenario (customer_id : value) (scenario : string) :
  _infer_scenario_for_customer customer_id = Ret scenario ->
  exists docs,
    four_documents customer_id = Ret docs /\
    chain_document customer_id 3 (fst (fst (fst docs))) /\
    (if (scenario =? "negative")%string then tells_negative docs
     else tells_positive docs).
Proof.
  intros Hscenario.
  rewrite four_documents_direct.
  unfold get_customer_profile, get_risk_score, explain_risk,
    generate_compliance_report.
  rewrite Hscenario, negative_score, positive_score. cbn [bind].
  destruct (scenario =? "negative")%string;
    (eexists; split; [reflexivity|]; split;
     [cbn; chain_document_by_cases|]).
  - cbn. repeat (split; [reflexivity|]). do 2 eexists. reflexivity.
  - cbn. repeat (split; [reflexivity|]). reflexivity.
Qed.

(** X3. The four documents of a customer tell one scenario: the negative
    one when the identifier contains "neg" in any case, and the positive one
    otherwise. *)
Theorem documents_tell_one_scenario (id : string) :
  exists docs,
    four_documents (VStr id) = Ret docs /\
    ((contains_any_case "neg" id /\ tells_negative docs) \/
     (~ contains_any_case "neg" id /\ tells_positive docs)).
Proof.
  destruct (four_documents_from_scenario (VStr id) _ (infer_scenario_str id))
    as (docs & Hdocs & _ & Htells).
  exists docs. split; [exact Hdocs|].
  pose proof (str_in_lower "neg" id eq_refl) as Hneg.
  destruct (str_in "neg" (lower id)).
  - left. split; [now apply Hneg | exact Htells].
  - right. split; [|exact Htells].
    intros Hc. apply Hneg in Hc. discriminate.
Qed.

Lemma string_length_app (s t : string) :
  String.length (s ++ t) = (String.length s + String.length t)%nat.
Proof. induction s as [|c s IH]; simpl; [reflexivity | now rewrite IH]. Qed.

Lemma string_app_inv_tail (s1 s2 t : string) :
  (s1 ++ t = s2 ++ t)%string -> s1 = s2.
Proof.
  revert s2. induction s1 as [|c s1 IH]; intros [|c' s2] H; simpl in H.
  - reflexivity.
  - apply (f_equal String.length) in H. simpl in H.
    rewrite string_length_app in H. lia.
  - apply (f_equal String.length) in H. simpl in H.
    rewrite string_length_app in H. lia.
  - injection H as -> H. now rewrite (IH _ H).
Qed.

Lemma report_id_str (id : string) :
  exists report,
    generate_compliance_report (VStr id) = Ret report /\
    field "report_id" report = Some (VStr ("RPT-" ++ id ++ "-001")).
Proof.
  unfold generate_compliance_report. rewrite infer_scenario_str.
  destruct (str_in "neg" (lower id)); eexists; split; reflexivity.
Qed.

(** X4. The report of a customer is numbered "RPT-<identifier>-001", and
    two customers whose reports have one number are one customer. *)
Theorem report_ids_identify_customers (id1 id2 : string) :
  exists report1 report2,
    generate_compliance_report (VStr id1) = Ret report1 /\
    generate_compliance_report (VStr id2) = Ret report2 /\
    field "report_id" report1 = Some (VStr ("RPT-" ++ id1 ++ "-001")) /\
    (field "report_id" report1 = field "report_id" report2 -> id1 = id2).
Proof.
  destruct (report_id_str id1) as (report1 & H1 & E1).
  destruct (report_id_str id2) as (report2 & H2 & E2).
  exists report1, report2. repeat split; try assumption.
  rewrite E1, E2. intros [= H]. now apply string_app_inv_tail in H.
Qed.

Lemma four_documents_echo (customer_id : value) (scenario : string) :
  _infer_scenario_for_customer customer_id = Ret scenario ->
  exists docs,
    four_documents customer_id = Ret docs /\ echoed customer_id docs.
Proof.
  intros Hscenario.
  rewrite four_documents_direct.
  unfold get_customer_profile, get_risk_score, explain_risk,
    generate_compliance_report.
  rewrite Hscenario, negative_score, positive_score. cbn [bind].
  destruct (scenario =? "negative")%string;
    (eexists; split; [reflexivity|]; cbn; repeat split; reflexivity).
Qed.

(** X5. An identifier that is falsy (None, the empty string, 0, an empty
    list or dict) is answered as a positive customer, and each of the four
    documents echoes the identifier as it came; any other identifier that is
    no string makes each of the four operations raise an AttributeError for
    the missing [lower]. *)
Theorem identifiers_that_are_no_strings (customer_id : value) :
  (truthy customer_id = false ->
   exists docs,
     four_documents customer_id = Ret docs /\
     chain_document customer_id 3 (fst (fst (fst docs))) /\
     tells_positive docs /\
     echoed customer_id docs) /\
  (truthy customer_id = true ->
   (forall s, customer_id <> VStr s) ->
   Forall (fun operation =>
             operation customer_id =
             Raise (Exn "AttributeError"
                      ("'" ++ type_name customer_id
                       ++ "' object has no attribute 'lower'")))
     responder_operations).
Proof.
  split.
  - intros Hfalsy.
    assert (Hscenario : _infer_scenario_for_customer customer_id = Ret "positive").
    { unfold _infer_scenario_for_customer. now rewrite Hfalsy. }
    destruct (four_documents_from_scenario customer_id "positive" Hscenario)
      as (docs & Hdocs & Hchain & Htells).
    destruct (four_documents_echo customer_id "positive" Hscenario)
      as (docs' & Hdocs' & Hecho).
    assert (docs' = docs) by congruence. subst docs'.
    exists docs. auto.
  - intros Htruthy Hstr.
    assert (Hscenario :
      _infer_scenario_for_customer customer_id =
      Raise (Exn "AttributeError"
               ("'" ++ type_name customer_id
                ++ "' object has no attribute 'lower'"))).
    { unfold _infer_scenario_for_customer. rewrite Htruthy. cbn [negb].
      destruct customer_id; try reflexivity.
      now elim (Hstr s). }
    unfold responder_operations.
    repeat constructor;
      unfold get_customer_profile, get_risk_score, explain_risk,
        generate_compliance_report;
      now rewrite Hscenario.
Qed.

Lemma identifiers_that_are_no_strings_witness :
  (exists docs,
      four_documents VNull = Ret docs /\
      tells_positive docs /\
      echoed VNull docs) /\
  get_risk_score (VNum 5) =
    Raise (Exn "AttributeError" "'int' object has no attribute 'lower'").
Proof.
  split.
  - destruct (proj1 (identifiers_that_are_no_strings VNull) eq_refl)
      as (docs & H1 & _ & H2 & H3).
    exists docs. auto.
  - pose proof (proj2 (identifiers_that_are_no_strings (VNum 5)) eq_refl) as H.
    assert (Hstr : forall s, VNum 5 <> VStr s) by discriminate.
    specialize (H Hstr).
    apply Forall_inv_tail, Forall_inv in H. exact H.
Defined.

(** *** The identifiers of the two walk-throughs *)

Lemma string_app_assoc (s t u : string) :
  ((s ++ t) ++ u = s ++ t ++ u)%string.
Proof. induction s as [|c s IH]; simpl; [reflexivity | now rewrite IH]. Qed.

Lemma prefix_neg_before_pos (s : string) :
  String.prefix "neg" (s ++ "-pos") = String.prefix "neg" s.
Proof.
  destruct s as [|a [|b [|c s]]]; cbn [String.prefix append].
  - reflexivity.
  - now destruct (ascii_dec "n" a).
  - destruct (ascii_dec "n" a); [|reflexivity].
    now destruct (ascii_dec "e" b).
  - destruct (ascii_dec "n" a); [|reflexivity].
    destruct (ascii_dec "e" b); [|reflexivity].
    destruct (ascii_dec "g" c); [|reflexivity].
    now destruct s.
Qed.

Lemma str_in_neg_before_pos (s : string) :
  str_in "neg" (s ++ "-pos") = str_in "neg" s.
Proof.
  induction s as [|c s IH]; [reflexivity|].
  change (String c s ++ "-pos")%string with (String c (s ++ "-pos")).
  cbn [str_in]. rewrite IH.
  change (String c (s ++ "-pos")) with (String c s ++ "-pos")%string.
  now rewrite prefix_neg_before_pos.
Qed.

Lemma str_in_neg_suffix (s : string) : str_in "neg" (s ++ "-neg") = true.
Proof.
  apply str_in_app. exists (s ++ "-")%string, ""%string.
  now rewrite string_app_assoc.
Qed.

(** X6. The identifier [run_scenarios] derives for its negative
    walk-through, "<identifier>-NEG", is negative for every identifier; the
    one for its positive walk-through, "<identifier>-POS", classifies as the
    identifier itself does, so it is positive only when the identifier has
    no "neg" in it. *)
Theorem walk_through_identifiers (id : string) :
  _infer_scenario_for_customer (neg_customer (VStr id)) = Ret "negative" /\
  _infer_scenario_for_customer (pos_customer (VStr id)) =
    _infer_scenario_for_customer (VStr id).
Proof.
  unfold neg_customer, pos_customer. cbn [format_customer_id].
  rewrite !infer_scenario_str, !lower_app.
  change (lower "-NEG") with "-neg". change (lower "-POS") with "-pos".
  now rewrite str_in_neg_suffix, str_in_neg_before_pos.
Qed.

Lemma infer_neg_suffix (id : string) :
  _infer_scenario_for_customer (VStr (id ++ "-NEG")) = Ret "negative".
Proof.
  rewrite infer_scenario_str, lower_app.
  change (lower "-NEG") with "-neg". now rewrite str_in_neg_suffix.
Qed.

(** X7. For every identifier that is a string, [run_demo] and
    [run_scenarios] return: none of their tool calls raises and both chains
    are followed to the end.  [run_scenarios] writes the positive
    walk-through, then the negative one, and the documents of its negative
    walk-through are those of a negative customer. *)
Theorem walk_throughs_return (id : string) :
  snd (run_demo (VStr id)) = Returned /\
  exists pos neg,
    four_documents (pos_customer (VStr id)) = Ret pos /\
    four_documents (neg_customer (VStr id)) = Ret neg /\
    tells_negative neg /\
    run_scenarios (VStr id) =
      ((Banner "================== POSITIVE SCENARIO =================="
        :: dumps pos
        ++ map Chained (trace (follow_next_steps (fst (fst (fst pos))) 4 0))
        ++ Banner "================== NEGATIVE SCENARIO =================="
        :: dumps neg
        ++ map Chained (trace (follow_next_steps (fst (fst (fst neg))) 4 0)))%list,
       Returned).
Proof.
  destruct (four_documents_from_scenario (VStr id) _ (infer_scenario_str id))
    as ([[[profile score] explanation] report] & Hdocs & Hchain & _).
  destruct (four_documents_from_scenario (VStr (id ++ "-POS")) _
              (infer_scenario_str (id ++ "-POS")))
    as ([[[pos_profile pos_score] pos_expl] pos_report] & Hpos & Hpos_chain & _).
  destruct (four_documents_from_scenario (VStr (id ++ "-NEG")) _
              (infer_neg_suffix id))
    as ([[[neg_profile neg_score] neg_expl] neg_report] & Hneg & Hneg_chain & Hneg_tells).
  cbn [fst] in Hchain, Hpos_chain, Hneg_chain.
  destruct (follow_chain_document id 3 profile 4 0 Hchain) as (Hs & _).
  destruct (follow_chain_document (id ++ "-POS") 3 pos_profile 4 0 Hpos_chain)
    as (Hpos_s & _).
  destruct (follow_chain_document (id ++ "-NEG") 3 neg_profile 4 0 Hneg_chain)
    as (Hneg_s & _).
  split.
  - unfold run_demo. rewrite Hdocs. cbn [snd]. exact Hs.
  - exists (pos_profile, pos_score, pos_expl, pos_report),
           (neg_profile, neg_score, neg_expl, neg_report).
    split; [exact Hpos|]. split; [exact Hneg|]. split; [exact Hneg_tells|].
    unfold run_scenarios, pos_customer, neg_customer.
    cbn [format_customer_id].
    rewrite Hdocs, Hpos, Hneg. cbn [bind fst].
    rewrite Hpos_s, Hneg_s. reflexivity.
Qed.

(** ** The tool adapter [_call_tool] *)

Lemma first_callable_app (tool : tool_object) (l1 l2 : list string) :
  first_callable tool (l1 ++ l2) =
  match first_callable tool l1 with
  | Some f => Some f
  | None => first_callable tool l2
  end.
Proof.
  induction l1 as [|name l1 IH]; simpl; [reflexivity|].
  now destruct (getattr tool name) as [[f|]|].
Qed.

Lemma first_callable_at (tool : tool_object) (pre post : list string)
    (name : string) (f : callee) :
  getattr tool name = Some (Callable f) ->
  (forall n g, In n pre -> getattr tool n <> Some (Callable g)) ->
  first_callable tool (pre ++ name :: post) = Some f.
Proof.
  intros Hname. induction pre as [|n pre IH]; intros Hpre; simpl.
  - now rewrite Hname.
  - destruct (getattr tool n) as [[g|]|] eqn:E.
    + now elim (Hpre n g (or_introl eq_refl)).
    + apply IH. intros m g Hm. apply Hpre. now right.
    + apply IH. intros m g Hm. apply Hpre. now right.
Qed.

Lemma first_callable_none (tool : tool_object) (names : list string) :
  (forall n g, In n names -> getattr tool n <> Some (Callable g)) ->
  first_callable tool names = None.
Proof.
  induction names as [|n names IH]; intros H; simpl; [reflexivity|].
  destruct (getattr tool n) as [[g|]|] eqn:E.
  - now elim (H n g (or_introl eq_refl)).
  - apply IH. intros m g Hm. apply H. now right.
  - apply IH. intros m g Hm. apply H. now right.
Qed.

Lemma first_callable_in (tool : tool_object) (names : list string) (f : callee) :
  first_callable tool names = Some f ->
  exists name, In name names /\ getattr tool name = Some (Callable f).
Proof.
  induction names as [|n names IH]; simpl; [discriminate|].
  destruct (getattr tool n) as [[g|]|] eqn:E.
  - intros [= ->]. exists n. auto.
  - intros H. destruct (IH H) as (name & Hin & Hname). exists name. auto.
  - intros H. destruct (IH H) as (name & Hin & Hname). exists name. auto.
Qed.

(** The two loops of [_call_tool] are one search through the seven
    attributes. *)
Lemma call_tool_search (tool : tool_object) (args : list value) (kwargs : dict) :
  _call_tool tool args kwargs =
  let further_attempts :=
    match first_callable tool probed_attributes with
    | Some f => call_and_await f args kwargs
    | None => Raise (not_callable_error tool)
    end in
  match when_called tool with
  | Some f =>
      match call_and_await f args kwargs with
      | Ret v => Ret v
      | Raise e => if is_type_error e then further_attempts else Raise e
      end
  | None => further_attempts
  end.
Proof.
  unfold _call_tool, probed_attributes. rewrite first_callable_app.
  now destruct (first_callable tool original_function_attributes).
Qed.

(** X8. When the tool object is not callable, or calling it raised a
    [TypeError], [_call_tool] calls the first callable attribute in the
    order [__wrapped__], [func], [fn], [function], [call], [invoke], [run],
    and its outcome is the outcome of that call. *)
Theorem call_tool_takes_the_first_callable_attribute (tool : tool_object)
    (args : list value) (kwargs : dict) (pre post : list string)
    (name : string) (f : callee) :
  falls_through tool args kwargs ->
  probed_attributes = (pre ++ name :: post)%list ->
  getattr tool name = Some (Callable f) ->
  (forall n g, In n pre -> getattr tool n <> Some (Callable g)) ->
  _call_tool tool args kwargs = call_and_await f args kwargs.
Proof.
  intros Hfalls Horder Hname Hpre.
  rewrite call_tool_search. cbv zeta.
  rewrite Horder, (first_callable_at tool pre post name f Hname Hpre).
  destruct Hfalls as [->|(g & e & -> & -> & ->)]; reflexivity.
Qed.

(** The wrapper of a responder keeps the function under [fn]; no attribute
    before [fn] exists, so the function is what is called. *)
Lemma call_tool_takes_the_first_callable_attribute_witness :
  _call_tool (function_tool explain_risk) [] [("customer_id", VStr "C1")] =
  call_and_await (async_responder explain_risk) [] [("customer_id", VStr "C1")].
Proof.
  apply (call_tool_takes_the_first_callable_attribute
           (function_tool explain_risk) [] [("customer_id", VStr "C1")]
           ["__wrapped__"; "func"] ["function"; "call"; "invoke"; "run"] "fn").
  - left. reflexivity.
  - reflexivity.
  - reflexivity.
  - intros n g [<-|[<-|[]]]; discriminate.
Defined.

(** X9. A callable tool's outcome is passed through, except for a
    [TypeError]: when the tool raises one and none of the seven attributes
    is callable, [_call_tool] raises its own "is not callable" error, and
    the tool's error is lost.  The same error is raised for an object that
    is not callable and has no such attribute. *)
Theorem call_tool_replaces_type_errors (tool : tool_object)
    (args : list value) (kwargs : dict) :
  (forall f v,
     when_called tool = Some f -> call_and_await f args kwargs = Ret v ->
     _call_tool tool args kwargs = Ret v) /\
  (forall f e,
     when_called tool = Some f -> call_and_await f args kwargs = Raise e ->
     is_type_error e = false ->
     _call_tool tool args kwargs = Raise e) /\
  (falls_through tool args kwargs ->
   (forall n g, In n probed_attributes -> getattr tool n <> Some (Callable g)) ->
   _call_tool tool args kwargs = Raise (not_callable_error tool)).
Proof.
  rewrite call_tool_search. cbv zeta. repeat split.
  - intros f v -> ->. reflexivity.
  - intros f e -> -> ->. reflexivity.
  - intros Hfalls Hnone.
    rewrite (first_callable_none tool probed_attributes Hnone).
    destruct Hfalls as [->|(g & e & -> & -> & ->)]; reflexivity.
Qed.

(** A plain function called with a keyword it does not take: the binding
    error is replaced by the "is not callable" error. *)
Lemma call_tool_replaces_type_errors_witness :
  _call_tool
    (mkTool "<class 'function'>" (Some (async_responder explain_risk))
       (fun _ => None))
    [] [("client", VStr "C1")] =
  Raise (Exn "TypeError"
           "Tool object of type <class 'function'> is not callable and no underlying function was found").
Proof.
  apply (proj2 (proj2 (call_tool_replaces_type_errors
           (mkTool "<class 'function'>" (Some (async_responder explain_risk))
              (fun _ => None))
           [] [("client", VStr "C1")]))).
  - right. do 2 eexists. split; [reflexivity|]. split; reflexivity.
  - intros n g _. discriminate.
Defined.

(** X10. [_call_tool] answers only what a callable of the tool answered: a
    value it returns was returned by the object itself or by one of the
    seven probed attributes, called with the same arguments. *)
Theorem call_tool_answers_come_from_the_tool (tool : tool_object)
    (args : list value) (kwargs : dict) (v : value) :
  _call_tool tool args kwargs = Ret v ->
  exists f,
    call_and_await f args kwargs = Ret v /\
    (when_called tool = Some f \/
     exists name, In name probed_attributes /\
                  getattr tool name = Some (Callable f)).
Proof.
  rewrite call_tool_search. cbv zeta.
  assert (Hsearch :
    match first_callable tool probed_attributes with
    | Some f => call_and_await f args kwargs
    | None => Raise (not_callable_error tool)
    end = Ret v ->
    exists f,
      call_and_await f args kwargs = Ret v /\
      (when_called tool = Some f \/
       exists name, In name probed_attributes /\
                    getattr tool name = Some (Callable f))).
  { destruct (first_callable tool probed_attributes) as [f|] eqn:E;
      [|discriminate].
    intros H. exists f. split; [exact H|]. right.
    now apply first_callable_in. }
  destruct (when_called tool) as [f|]; [|exact Hsearch].
  destruct (call_and_await f args kwargs) as [w|e] eqn:E.
  - intros [= ->]. exists f. auto.
  - destruct (is_type_error e); [exact Hsearch | discriminate].
Qed.

Lemma call_tool_answers_come_from_the_tool_witness :
  exists doc f,
    _call_tool (function_tool explain_risk) [VStr "C1"] [] = Ret doc /\
    call_and_await f [VStr "C1"] [] = Ret doc.
Proof.
  eexists.
  destruct (call_tool_answers_come_from_the_tool
              (function_tool explain_risk) [VStr "C1"] [] _ eq_refl)
    as (f & H & _).
  exists f. split; [reflexivity | exact H].
Defined.

(** ** Further properties of the follower *)

Lemma dict_get_set_same (k : string) (v : value) (d : dict) :
  dict_get k (dict_set k v d) = Some v.
Proof.
  induction d as [|[k' v'] d IH]; simpl.
  - now rewrite String.eqb_refl.
  - destruct (k' =? k)%string eqn:E; simpl; now rewrite E.
Qed.

Lemma dict_get_set_other (k k' : string) (v : value) (d : dict) :
  k' <> k -> dict_get k' (dict_set k v d) = dict_get k' d.
Proof.
  intros Hne. induction d as [|[k0 v0] d IH]; simpl.
  - destruct (String.eqb_spec k k'); [congruence | reflexivity].
  - destruct (String.eqb_spec k0 k) as [->|Hk]; simpl.
    + destruct (String.eqb_spec k k'); [congruence | reflexivity].
    + now destruct (k0 =? k')%string.
Qed.

(** X12. A result without [next_steps], or with a falsy one (None, an empty
    list), is left alone: below the depth guard the follower reports
    nothing, calls nothing and returns.  A result that is no dict makes it
    raise an AttributeError before anything is reported. *)
Theorem nothing_to_follow (tools : registry) (result : value)
    (max_depth _depth : Z) :
  _depth < max_depth ->
  ((exists fields,
       result = VObj fields /\
       (dict_get "next_steps" fields = None \/
        exists v, dict_get "next_steps" fields = Some v /\ truthy v = false)) ->
   follow tools result max_depth _depth = mkRun [] result Returned) /\
  ((forall fields, result <> VObj fields) ->
   follow tools result max_depth _depth =
   mkRun [] result
     (Raised (Exn "AttributeError"
                ("'" ++ type_name result ++ "' object has no attribute 'get'")))).
Proof.
  intros Hd. rewrite follow_unfold by assumption. unfold follow_body. split.
  - intros (fields & -> & [E|(v & E & Hv)]); rewrite E; [reflexivity|].
    now rewrite Hv.
  - intros Hno. destruct result; try reflexivity. now elim (Hno fields).
Qed.

Lemma nothing_to_follow_witness :
  follow_next_steps (VObj [("customer_id", VStr "C1"); ("next_steps", VArr [])]) 4 0 =
    mkRun [] (VObj [("customer_id", VStr "C1"); ("next_steps", VArr [])]) Returned /\
  status (follow_next_steps (VArr []) 4 0) =
    Raised (Exn "AttributeError" "'list' object has no attribute 'get'").
Proof.
  unfold follow_next_steps. split.
  - apply (proj1 (nothing_to_follow tool_map
             (VObj [("customer_id", VStr "C1"); ("next_steps", VArr [])]) 4 0
             eq_refl)).
    eexists. split; [reflexivity|]. right. eexists. split; reflexivity.
  - rewrite (proj2 (nothing_to_follow tool_map (VArr []) 4 0 eq_refl));
      [reflexivity | discriminate].
Defined.

Lemma run_steps_strings (tools : registry) (rec : value -> run)
    (result : dict) (_depth : Z) (notes : list string) :
  run_steps tools rec result _depth (map VStr notes) =
  mkLoop (map (fun note => PrintHuman (VStr note)) notes) (map VStr notes)
    Returned.
Proof.
  induction notes as [|note notes IH]; [reflexivity|].
  cbn [map run_steps process_step status trace store]. now rewrite IH.
Qed.

(** X13. A [next_steps] that is a string instead of a list is walked
    character by character: the follower reports each character as a human
    action, calls no tool, returns and changes nothing. *)
Theorem string_of_steps_is_spelled_out (tools : registry) (fields : dict)
    (steps : string) (max_depth _depth : Z) :
  _depth < max_depth ->
  dict_get "next_steps" fields = Some (VStr steps) ->
  follow tools (VObj fields) max_depth _depth =
  mkRun (map (fun c => PrintHuman (VStr c)) (chars steps)) (VObj fields) Returned.
Proof.
  intros Hd Hsteps. rewrite follow_unfold by assumption.
  unfold follow_body. rewrite Hsteps.
  destruct steps as [|c steps]; [reflexivity|].
  cbn [truthy String.eqb negb py_iter]. now rewrite run_steps_strings.
Qed.

Lemma string_of_steps_is_spelled_out_witness :
  trace (follow_next_steps (VObj [("next_steps", VStr "KYC")]) 4 0) =
  [PrintHuman (VStr "K"); PrintHuman (VStr "Y"); PrintHuman (VStr "C")].
Proof.
  unfold follow_next_steps.
  now rewrite (string_of_steps_is_spelled_out tool_map
                 [("next_steps", VStr "KYC")] "KYC" 4 0 eq_refl eq_refl).
Defined.

Lemma run_steps_stops (tools : registry) (rec : value -> run) (result : dict)
    (_depth : Z) (pre post : list value) (step : value) (e : exn) :
  lstatus (run_steps tools rec result _depth pre) = Returned ->
  status (process_step tools rec result _depth step) = Raised e ->
  run_steps tools rec result _depth (pre ++ step :: post) =
  mkLoop (ltrace (run_steps tools rec result _depth pre)
          ++ trace (process_step tools rec result _depth step))
         (lsteps (run_steps tools rec result _depth pre)
          ++ store (process_step tools rec result _depth step) :: post)
         (Raised e).
Proof.
  intros Hpre Hstep. rewrite (run_steps_app _ _ _ _ _ _ Hpre).
  cbn [run_steps]. rewrite Hstep. reflexivity.
Qed.

(** X14. The [try] of the follower covers the call only.  When the [params]
    of a tool invocation are no container (null, a number, a boolean), the
    test for [customer_id] raises a TypeError that leaves
    [follow_next_steps]: nothing is reported for the entry, the entries
    after it are not processed, and no entry is changed by it. *)
Theorem broken_params_stop_the_follower (tools : registry) (fields : dict)
    (max_depth _depth : Z) (pre post : list value) (entry : dict)
    (tool_name params : value) :
  _depth < max_depth ->
  dict_get "next_steps" fields = Some (VArr (pre ++ VObj entry :: post)) ->
  lstatus (follow_steps tools max_depth _depth fields pre) = Returned ->
  dict_get "tool" entry = Some tool_name ->
  truthy tool_name = true ->
  dict_get "params" entry = Some params ->
  no_container params ->
  follow tools (VObj fields) max_depth _depth =
  mkRun (ltrace (follow_steps tools max_depth _depth fields pre))
    (VObj (dict_set "next_steps"
             (VArr (lsteps (follow_steps tools max_depth _depth fields pre)
                    ++ VObj entry :: post))
             fields))
    (Raised (Exn "TypeError"
               ("argument of type '" ++ type_name params ++ "' is not iterable"))).
Proof.
  intros Hd Hsteps Hpre Htool Htruthy Hparams Hno.
  rewrite (follow_list tools fields _ max_depth _depth Hd Hsteps)
    by now destruct pre.
  cbv zeta. unfold follow_steps in *.
  assert (Hstep :
    process_step tools (fun resp => follow tools resp max_depth (_depth + 1))
      fields _depth (VObj entry) =
    mkRun [] (VObj entry)
      (Raised (Exn "TypeError"
                 ("argument of type '" ++ type_name params
                  ++ "' is not iterable")))).
  { unfold process_step. rewrite Htool, Htruthy.
    unfold invoke_step, step_params. rewrite Hparams.
    destruct params; try contradiction; reflexivity. }
  rewrite (run_steps_stops tools _ fields _depth pre post (VObj entry) _ Hpre)
    by now rewrite Hstep.
  rewrite Hstep. cbn [ltrace lsteps lstatus trace store].
  now rewrite app_nil_r.
Qed.

(** A step with [params: null] between two notes: the first note is
    reported, the second is not, and the exception comes out. *)
Lemma broken_params_stop_the_follower_witness :
  trace (follow_next_steps
           (VObj [("next_steps",
                   VArr [VStr "before";
                         VObj [("tool", VStr "explain_risk"); ("params", VNull)];
                         VStr "after"])])
           4 0) = [PrintHuman (VStr "before")] /\
  status (follow_next_steps
            (VObj [("next_steps",
                    VArr [VStr "before";
                          VObj [("tool", VStr "explain_risk"); ("params", VNull)];
                          VStr "after"])])
            4 0) =
    Raised (Exn "TypeError" "argument of type 'NoneType' is not iterable").
Proof.
  unfold follow_next_steps.
  rewrite (broken_params_stop_the_follower tool_map
             [("next_steps",
               VArr [VStr "before";
                     VObj [("tool", VStr "explain_risk"); ("params", VNull)];
                     VStr "after"])]
             4 0 [VStr "before"] [VStr "after"]
             [("tool", VStr "explain_risk"); ("params", VNull)]
             (VStr "explain_risk") VNull
             eq_refl eq_refl eq_refl eq_refl eq_refl eq_refl I).
  split; reflexivity.
Defined.

(** *** The follower on the result it has left *)

Lemma inject_parent_ext (result1 result2 : dict) (params : value) :
  dict_get "customer_id" result1 = dict_get "customer_id" result2 ->
  inject_customer_id result1 params = inject_customer_id result2 params.
Proof. intros H. unfold inject_customer_id, dict_has. now rewrite H. Qed.

Lemma inject_again (result : dict) (params params' : value) :
  inject_customer_id result params = Ret params' ->
  inject_customer_id result params' = Ret params'.
Proof.
  intros H.
  destruct (inject_cases _ _ _ H) as [->|(fields & c & _ & _ & _ & ->)];
    [exact H|].
  unfold inject_customer_id, py_not_in, bind, dict_has.
  now rewrite dict_get_set_same.
Qed.

Section Again.

Variable tools : registry.
Variable rec : value -> run.

Lemma process_step_parent_ext result1 result2 _depth step :
  dict_get "customer_id" result1 = dict_get "customer_id" result2 ->
  process_step tools rec result1 _depth step =
  process_step tools rec result2 _depth step.
Proof.
  intros H. unfold process_step, invoke_step.
  destruct step; try reflexivity.
  destruct (dict_get "tool" fields); [|reflexivity].
  destruct (truthy v); [|reflexivity].
  now rewrite (inject_parent_ext _ _ _ H).
Qed.

Lemma run_steps_parent_ext result1 result2 _depth steps :
  dict_get "customer_id" result1 = dict_get "customer_id" result2 ->
  run_steps tools rec result1 _depth steps =
  run_steps tools rec result2 _depth steps.
Proof.
  intros H. induction steps as [|step rest IH]; simpl; [reflexivity|].
  now rewrite (process_step_parent_ext _ _ _ _ H), IH.
Qed.

Lemma invoke_step_store result _depth step tool_name :
  store (invoke_step tools rec result _depth step tool_name) =
  match inject_customer_id result (step_params step) with
  | Ret params =>
      VObj (if dict_has "params" step then dict_set "params" params step
            else step)
  | Raise _ => VObj step
  end.
Proof.
  unfold invoke_step.
  destruct (inject_customer_id result (step_params step)) as [params|e];
    [|reflexivity].
  destruct (registry_get tools tool_name) as [[func|]|e]; try reflexivity.
  destruct params as [| | | | |kwargs]; try reflexivity.
  destruct (dict_has "tool" kwargs); [reflexivity|].
  now destruct (func kwargs).
Qed.

Lemma invoke_step_again result _depth step tool_name params :
  inject_customer_id result (step_params step) = Ret params ->
  dict_has "params" step = true ->
  invoke_step tools rec result _depth (dict_set "params" params step) tool_name =
  invoke_step tools rec result _depth step tool_name.
Proof.
  intros Hinject Hhas. unfold invoke_step.
  assert (Hparams : step_params (dict_set "params" params step) = params).
  { unfold step_params. now rewrite dict_get_set_same. }
  rewrite Hparams, (inject_again _ _ _ Hinject), Hinject.
  unfold dict_has. rewrite dict_get_set_same.
  unfold dict_has in Hhas. rewrite Hhas.
  now rewrite (dict_set_same "params" params (dict_set "params" params step))
    by apply dict_get_set_same.
Qed.

Lemma process_step_again result _depth step :
  process_step tools rec result _depth
    (store (process_step tools rec result _depth step)) =
  process_step tools rec result _depth step.
Proof.
  destruct step; try reflexivity.
  unfold process_step at 2 3.
  destruct (dict_get "tool" fields) as [tool_name|] eqn:Htool;
    [|cbn [store process_step]; now rewrite Htool].
  destruct (truthy tool_name) eqn:Htruthy;
    [|cbn [store process_step]; now rewrite Htool, Htruthy].
  rewrite invoke_step_store.
  destruct (inject_customer_id result (step_params fields)) as [params|e]
    eqn:Hinject.
  - destruct (dict_has "params" fields) eqn:Hhas.
    + cbn [process_step].
      rewrite dict_get_set_other, Htool, Htruthy by discriminate.
      now apply invoke_step_again.
    + cbn [process_step]. now rewrite Htool, Htruthy.
  - cbn [process_step]. now rewrite Htool, Htruthy.
Qed.

Lemma run_steps_again result _depth steps :
  run_steps tools rec result _depth
    (lsteps (run_steps tools rec result _depth steps)) =
  run_steps tools rec result _depth steps.
Proof.
  induction steps as [|step rest IH]; [reflexivity|].
  cbn [run_steps].
  destruct (status (process_step tools rec result _depth step)) eqn:Hs;
    cbn [lsteps run_steps]; rewrite process_step_again, Hs;
    [now rewrite IH | reflexivity | reflexivity].
Qed.

Lemma run_steps_keeps_entries result _depth step rest :
  lsteps (run_steps tools rec result _depth (step :: rest)) <> [].
Proof.
  cbn [run_steps].
  now destruct (status (process_step tools rec result _depth step)).
Qed.

End Again.

Lemma follow_body_again (tools : registry) (rec : value -> run)
    (result : value) (_depth : Z) :
  follow_body tools rec (store (follow_body tools rec result _depth)) _depth =
  follow_body tools rec result _depth.
Proof.
  destruct result as [| | | |items|fields]; try reflexivity.
  assert (Hquiet :
    store (follow_body tools rec (VObj fields) _depth) = VObj fields \/
    exists step rest,
      dict_get "next_steps" fields = Some (VArr (step :: rest))).
  { unfold follow_body.
    destruct (dict_get "next_steps" fields) as [v|]; [|now left].
    destruct v as [| | | |items|entries]; try (now left).
    - destruct b; now left.
    - simpl. destruct (n =? 0) eqn:E; simpl; rewrite ?E; now left.
    - destruct s; now left.
    - destruct items as [|step rest]; [now left|]. right. eauto.
    - destruct entries; now left. }
  destruct Hquiet as [->|(step & rest & Hsteps)]; [reflexivity|].
  unfold follow_body. rewrite Hsteps. cbn [truthy negb store].
  set (l := run_steps tools rec fields _depth (step :: rest)).
  rewrite dict_get_set_same.
  pose proof (run_steps_keeps_entries tools rec fields _depth step rest) as Hne.
  fold l in Hne.
  destruct (lsteps l) as [|step' rest'] eqn:Hl; [congruence|].
  cbn [truthy negb]. rewrite <- Hl.
  rewrite (run_steps_parent_ext tools rec
             (dict_set "next_steps" (VArr (lsteps l)) fields) fields)
    by (apply dict_get_set_other; discriminate).
  assert (Hagain : run_steps tools rec fields _depth (lsteps l) = l)
    by apply run_steps_again.
  rewrite Hagain.
  now rewrite (dict_set_same "next_steps" (VArr (lsteps l))
                 (dict_set "next_steps" (VArr (lsteps l)) fields))
    by apply dict_get_set_same.
Qed.

(** X15. Following a result a second time, as the follower has left it,
    gives the same run: the same reports and calls with the same
    parameters, and no further change of the result. *)
Theorem following_again_changes_nothing (tools : registry) (result : value)
    (max_depth _depth : Z) :
  follow tools (store (follow tools result max_depth _depth)) max_depth _depth =
  follow tools result max_depth _depth.
Proof.
  destruct (Z.leb_spec max_depth _depth) as [Hle|Hlt].
  - now rewrite !(follow_guard tools _ max_depth _depth Hle).
  - rewrite !(follow_unfold tools _ max_depth _depth Hlt).
    apply follow_body_again.
Qed.

(** *** The depths the follower reports *)

Section Depths.

Variable tools : registry.
Variable rec : value -> run.
Variables max_depth _depth : Z.

Hypothesis below_guard : _depth < max_depth.
Hypothesis rec_depths :
  forall resp, Forall (depth_within (_depth + 1) max_depth) (trace (rec resp)).

Lemma depth_within_weaken (e : event) :
  depth_within (_depth + 1) max_depth e -> depth_within _depth max_depth e.
Proof. destruct e; simpl; lia. Qed.

Lemma process_step_depths result step :
  Forall (depth_within _depth max_depth)
    (trace (process_step tools rec result _depth step)).
Proof.
  assert (Hfollowing : forall name params,
    depth_within _depth max_depth (PrintFollowing name params (_depth + 1)))
    by (intros; simpl; lia).
  unfold process_step, invoke_step.
  destruct step as [| | | | |fields]; try (repeat constructor).
  destruct (dict_get "tool" fields) as [tool_name|]; [|repeat constructor].
  destruct (truthy tool_name); [|repeat constructor].
  destruct (inject_customer_id result (step_params fields)) as [params|e];
    [|constructor].
  destruct (registry_get tools tool_name) as [[func|]|e];
    try (repeat constructor).
  destruct params as [| | | | |kwargs];
    try (cbn [trace]; apply Forall_cons; [apply Hfollowing|];
         repeat constructor).
  destruct (dict_has "tool" kwargs);
    [cbn [trace]; apply Forall_cons; [apply Hfollowing|];
     repeat constructor|].
  destruct (func kwargs) as [resp|e];
    [|cbn [trace]; apply Forall_cons; [apply Hfollowing|];
      repeat constructor].
  cbn [trace app]. apply Forall_cons; [apply Hfollowing|].
  apply Forall_cons; [exact I|]. apply Forall_cons; [exact I|].
  apply Forall_app. split.
  - eapply Forall_impl; [apply depth_within_weaken | apply rec_depths].
  - destruct (status (rec resp)); repeat constructor.
Qed.

Lemma run_steps_depths result steps :
  Forall (depth_within _depth max_depth)
    (ltrace (run_steps tools rec result _depth steps)).
Proof.
  induction steps as [|step rest IH]; simpl; [constructor|].
  pose proof (process_step_depths result step) as H.
  destruct (status (process_step tools rec result _depth step));
    cbn [ltrace]; [apply Forall_app; split; assumption | assumption | assumption].
Qed.

Lemma follow_body_depths result :
  Forall (depth_within _depth max_depth)
    (trace (follow_body tools rec result _depth)).
Proof.
  unfold follow_body. destruct result; try constructor.
  destruct (negb _); [constructor|].
  destruct (match dict_get "next_steps" fields with
            | Some v => if truthy v then v else VArr []
            | None => VArr []
            end); cbn [py_iter trace]; try constructor;
    apply run_steps_depths.
Qed.

End Depths.

(** X16. In a run that starts at or below [max_depth], every call is
    announced at a depth above [_depth] and not above [max_depth], and a
    truncation is reported at [max_depth] exactly: no tool is called beyond
    the bound. *)
Theorem reported_depths_are_bounded (tools : registry) (result : value)
    (max_depth _depth : Z) :
  _depth <= max_depth ->
  Forall (depth_within _depth max_depth)
    (trace (follow tools result max_depth _depth)).
Proof.
  remember (Z.to_nat (max_depth - _depth)) as n eqn:Hn.
  revert result _depth Hn.
  induction n as [|n IH]; intros result _depth Hn Hle.
  - rewrite follow_guard by lia. repeat constructor. simpl. lia.
  - rewrite follow_unfold by lia.
    apply follow_body_depths; [lia|].
    intros resp. apply IH; lia.
Qed.

Lemma reported_depths_are_bounded_witness :
  Forall (depth_within 0 2) (trace (follow looping_tools loop_answer 2 0)).
Proof.
  apply (reported_depths_are_bounded looping_tools loop_answer 2 0). lia.
Defined.

(** ** The workflow-engine adapter *)

Lemma dict_get_put_same (k : string) (arg : option string)
    (wrap : string -> value) (d : dict) :
  dict_get k (camunda_server.put_if_given k arg wrap d) =
  match camunda_server.given arg with
  | Some s => Some (wrap s)
  | None => dict_get k d
  end.
Proof.
  unfold camunda_server.put_if_given.
  destruct (camunda_server.given arg); [apply dict_get_set_same | reflexivity].
Qed.

Lemma dict_get_put_other (k k' : string) (arg : option string)
    (wrap : string -> value) (d : dict) :
  k' <> k ->
  dict_get k' (camunda_server.put_if_given k arg wrap d) = dict_get k' d.
Proof.
  intros Hne. unfold camunda_server.put_if_given.
  destruct (camunda_server.given arg);
    [now apply dict_get_set_other | reflexivity].
Qed.

Lemma camunda_variables_get (variables : dict) (name : string) :
  dict_get name (camunda_server.camunda_variables variables) =
  option_map wrapped_variable (dict_get name variables).
Proof.
  induction variables as [|[n v] variables IH]; simpl; [reflexivity|].
  now destruct (n =? name)%string.
Qed.

Lemma camunda_variables_names (variables : dict) :
  map fst (camunda_server.camunda_variables variables) = map fst variables.
Proof.
  unfold camunda_server.camunda_variables. rewrite map_map.
  now apply map_ext.
Qed.

Lemma put_variables_get (variables : option dict) (payload : dict) :
  dict_get "variables" (camunda_server.put_variables variables payload) =
  match variables with
  | Some (first :: others) =>
      Some (VObj (camunda_server.camunda_variables (first :: others)))
  | _ => dict_get "variables" payload
  end.
Proof.
  unfold camunda_server.put_variables.
  destruct variables as [[|first others]|]; try reflexivity.
  cbn [truthy]. apply dict_get_set_same.
Qed.

(** X17. [start_process_instance] and [complete_task] send the variables
    they are given under the same names and in the same order, each as
    [{"value": value, "type": "String"}] whatever the value is; with no
    variables, or an empty dict of them, the payload has no ["variables"]
    at all. *)
Theorem variables_are_sent_as_strings (business_key : option string)
    (variables : option dict) :
  dict_get "variables"
    (camunda_server.start_process_instance_payload business_key variables) =
  dict_get "variables" (camunda_server.complete_task_payload variables) /\
  match variables with
  | Some (first :: others) =>
      exists sent,
        dict_get "variables" (camunda_server.complete_task_payload variables) =
          Some (VObj sent) /\
        map fst sent = map fst (first :: others) /\
        forall name,
          dict_get name sent =
          option_map wrapped_variable (dict_get name (first :: others))
  | _ =>
      dict_get "variables" (camunda_server.complete_task_payload variables) = None
  end.
Proof.
  unfold camunda_server.start_process_instance_payload,
    camunda_server.complete_task_payload.
  rewrite !put_variables_get.
  assert (Hkey : dict_get "variables"
                   (camunda_server.put_if_given "businessKey" business_key VStr []) =
                 None)
    by (rewrite dict_get_put_other by discriminate; reflexivity).
  destruct variables as [[|first others]|].
  - now rewrite Hkey.
  - split; [reflexivity|]. eexists. split; [reflexivity|]. split.
    + apply camunda_variables_names.
    + intros name. apply camunda_variables_get.
  - now rewrite Hkey.
Qed.

Ltac filter_lookup :=
  repeat first
    [ rewrite dict_get_set_same
    | rewrite dict_get_put_same
    | rewrite dict_get_set_other by discriminate
    | rewrite dict_get_put_other by discriminate ];
  repeat match goal with
         | |- context [camunda_server.given ?x] =>
             destruct (camunda_server.given x)
         end;
  reflexivity.

(** X18. The listing tools send a filter only for an argument that is given
    and not empty; the name filters of [list_process_definitions] are sent
    between two "%"; and [list_process_instances] sends [active] as the
    string "true" or not at all, so that [active=False] asks for all
    instances. *)
Theorem empty_filters_are_not_sent (a b c : option string) (flag : bool)
    (max_results : Z) :
  let definitions :=
    camunda_server.list_process_definitions_params a b flag max_results in
  let instances :=
    camunda_server.list_process_instances_params a b flag max_results in
  let tasks := camunda_server.list_tasks_params a b c max_results in
  (dict_get "maxResults" definitions = Some (VNum max_results) /\
   dict_get "latestVersion" definitions = Some (VBool flag) /\
   dict_get "keyLike" definitions =
     option_map (fun k => VStr ("%" ++ k ++ "%")) (camunda_server.given a) /\
   dict_get "nameLike" definitions =
     option_map (fun n => VStr ("%" ++ n ++ "%")) (camunda_server.given b)) /\
  (dict_get "maxResults" instances = Some (VNum max_results) /\
   dict_get "processDefinitionKey" instances =
     option_map VStr (camunda_server.given a) /\
   dict_get "businessKey" instances = option_map VStr (camunda_server.given b) /\
   dict_get "active" instances = if flag then Some (VStr "true") else None) /\
  (dict_get "maxResults" tasks = Some (VNum max_results) /\
   dict_get "processInstanceId" tasks = option_map VStr (camunda_server.given a) /\
   dict_get "assignee" tasks = option_map VStr (camunda_server.given b) /\
   dict_get "candidateUser" tasks = option_map VStr (camunda_server.given c)).
Proof.
  cbv zeta.
  unfold camunda_server.list_process_definitions_params,
    camunda_server.list_process_instances_params,
    camunda_server.list_tasks_params.
  destruct flag; repeat split; filter_lookup.
Qed.

Section EngineFacts.

Variables CAMUNDA_URL CAMUNDA_USER CAMUNDA_PASSWORD : string.
Variable client_request :
  camunda_server.http_request -> py camunda_server.http_response.

(** [camunda_request] returns when the client answers, the status check
    passes, and the body is empty or decodes. *)
Lemma camunda_request_returns (endpoint method : string)
    (params json_data : option dict) :
  (exists v,
      camunda_server.camunda_request CAMUNDA_URL CAMUNDA_USER CAMUNDA_PASSWORD
        client_request endpoint method params json_data = Ret v) <->
  (exists response,
      client_request
        (camunda_server.mkRequest method (CAMUNDA_URL ++ "/" ++ endpoint)
           (camunda_server.get_auth CAMUNDA_USER CAMUNDA_PASSWORD)
           params json_data 30) = Ret response /\
      accepted response).
Proof.
  unfold camunda_server.camunda_request, accepted, bind.
  destruct (client_request _) as [response|e] eqn:Hclient.
  - destruct (camunda_server.raise_for_status response) as [[]|e] eqn:Hstatus.
    + destruct (String.eqb_spec (camunda_server.text response) "") as [E|E];
        cbn [negb].
      * split; [intros _; exists response; auto | intros _; eauto].
      * split.
        -- intros [v Hv]. exists response. eauto.
        -- intros (r & [= <-] & _ & [Hempty|Hjson]);
             [contradiction | exact Hjson].
    + split; [intros [v Hv]; discriminate|].
      intros (r & [= <-] & Hr & _). congruence.
  - split; [intros [v Hv]; discriminate|].
    intros (r & Hr & _). discriminate.
Qed.

End EngineFacts.

Lemma message_after_request (request : py value) (text message : string) :
  (_ <- request ;; Ret text) = Ret message <->
  message = text /\ exists v, request = Ret v.
Proof.
  destruct request as [v|e]; cbn [bind].
  - split; [intros [= <-]; eauto | intros [-> _]; reflexivity].
  - split; [discriminate | intros [_ [v Hv]]; discriminate].
Qed.

(** X19. [delete_process_instance], [complete_task] and [claim_task] answer
    with their success message exactly when the engine accepted the
    request: the client answered, the status check passed, and the body was
    empty or decoded.  They never answer anything but that message. *)
Theorem success_is_reported_only_after_success
    (CAMUNDA_URL CAMUNDA_USER CAMUNDA_PASSWORD : string)
    (client_request :
       camunda_server.http_request -> py camunda_server.http_response)
    (id user_id : string) (reason : option string) (variables : option dict)
    (message : string) :
  let auth := camunda_server.get_auth CAMUNDA_USER CAMUNDA_PASSWORD in
  let answered request :=
    exists response, client_request request = Ret response /\ accepted response in
  (camunda_server.delete_process_instance CAMUNDA_URL CAMUNDA_USER
     CAMUNDA_PASSWORD client_request id reason = Ret message <->
   message = "Process instance " ++ id ++ " deleted successfully" /\
   answered
     (camunda_server.mkRequest "DELETE"
        (CAMUNDA_URL ++ "/" ++ "process-instance/" ++ id) auth
        (Some (camunda_server.delete_process_instance_params reason)) None 30)) /\
  (camunda_server.complete_task CAMUNDA_URL CAMUNDA_USER CAMUNDA_PASSWORD
     client_request id variables = Ret message <->
   message = "Task " ++ id ++ " completed successfully" /\
   answered
     (camunda_server.mkRequest "POST"
        (CAMUNDA_URL ++ "/" ++ "task/" ++ id ++ "/complete") auth None
        (Some (camunda_server.complete_task_payload variables)) 30)) /\
  (camunda_server.claim_task CAMUNDA_URL CAMUNDA_USER CAMUNDA_PASSWORD
     client_request id user_id = Ret message <->
   message = "Task " ++ id ++ " claimed by " ++ user_id /\
   answered
     (camunda_server.mkRequest "POST"
        (CAMUNDA_URL ++ "/" ++ "task/" ++ id ++ "/claim") auth None
        (Some [("userId", VStr user_id)]) 30)).
Proof.
  cbv zeta.
  unfold camunda_server.delete_process_instance, camunda_server.complete_task,
    camunda_server.claim_task.
  split; [|split]; (split; intros Hall).
  all: try (apply message_after_request in Hall as [-> Hall];
            split; [reflexivity|]; now apply camunda_request_returns in Hall).
  all: destruct Hall as [-> Hall]; apply camunda_request_returns in Hall;
       apply message_after_request; auto.
Qed.

(** ** The injection of [customer_id] *)

Lemma effective_kwargs_keeps_other_keys (result params : dict) (k : string) :
  k <> "customer_id" ->
  dict_has k (effective_kwargs result params) = dict_has k params.
Proof.
  intros Hk. unfold effective_kwargs.
  destruct (dict_has "customer_id" params); [reflexivity|].
  destruct (dict_get "customer_id" result); [|reflexivity].
  unfold dict_has. now rewrite dict_get_set_other.
Qed.

(** X20. A tool invocation the follower reaches, for a registered tool and
    with [params] that have no key [tool]: when the [params] lack
    [customer_id] and the parent result has one, the tool is called with the
    [params] extended by the parent's [customer_id]; when the [params] have a
    [customer_id], the tool is called with them as they are. *)
Theorem customer_id_is_injected (tools : registry) (fields : dict)
    (max_depth _depth : Z) (pre post : list value) (step : value)
    (name : string) (params : dict) (func : tool) :
  _depth < max_depth ->
  dict_get "next_steps" fields = Some (VArr (pre ++ step :: post)) ->
  lstatus (follow_steps tools max_depth _depth fields pre) = Returned ->
  tool_invocation step name params ->
  tools name = Some func ->
  dict_has "tool" params = false ->
  (forall customer_id,
     dict_has "customer_id" params = false ->
     dict_get "customer_id" fields = Some customer_id ->
     exists rest,
       trace (follow tools (VObj fields) max_depth _depth) =
       (ltrace (follow_steps tools max_depth _depth fields pre)
        ++ PrintFollowing (VStr name)
             (VObj (dict_set "customer_id" customer_id params)) (_depth + 1)
        :: CallTool (VStr name) (dict_set "customer_id" customer_id params)
        :: rest)%list) /\
  (dict_has "customer_id" params = true ->
   exists rest,
     trace (follow tools (VObj fields) max_depth _depth) =
     (ltrace (follow_steps tools max_depth _depth fields pre)
      ++ PrintFollowing (VStr name) (VObj params) (_depth + 1)
      :: CallTool (VStr name) params
      :: rest)%list).
Proof.
  intros Hd Hsteps Hpre (sf & -> & Htool & Hname & Hparams) Hfunc Hbound.
  pose proof (process_invocation tools
                (fun resp => follow tools resp max_depth (_depth + 1))
                fields _depth sf name params Htool Hname Hparams) as Hstep.
  cbv zeta in Hstep.
  rewrite Hfunc, effective_kwargs_keeps_other_keys, Hbound in Hstep
    by discriminate.
  assert (Hcalled : exists rest,
    trace (follow tools (VObj fields) max_depth _depth) =
    (ltrace (follow_steps tools max_depth _depth fields pre)
     ++ PrintFollowing (VStr name) (VObj (effective_kwargs fields params))
          (_depth + 1)
     :: CallTool (VStr name) (effective_kwargs fields params) :: rest)%list).
  { destruct (follow_at tools fields pre (VObj sf) post max_depth _depth
                Hd Hsteps Hpre) as [Ht _].
    - rewrite Hstep.
      destruct (func (effective_kwargs fields params)) as [resp|e];
        cbn [status]; [|reflexivity].
      pose proof (follow_status tools resp max_depth (_depth + 1)) as Hfuel.
      now destruct (status (follow tools resp max_depth (_depth + 1))).
    - rewrite Ht, Hstep.
      destruct (func (effective_kwargs fields params)) as [resp|e];
        cbn [trace call_report app]; eauto. }
  unfold effective_kwargs in Hcalled. split.
  - intros customer_id Habsent Hparent.
    now rewrite Habsent, Hparent in Hcalled.
  - intros Hpresent. now rewrite Hpresent in Hcalled.
Qed.

(** The example of the specification: the parent [{customer_id: "C1"}] with
    the single step [{tool: "X", params: {}}] calls [X] with
    [{customer_id: "C1"}]. *)
Lemma customer_id_is_injected_witness :
  exists rest,
    trace (follow sample_tools
             (VObj [("customer_id", VStr "C1");
                    ("next_steps",
                     VArr [VObj [("tool", VStr "X"); ("params", VObj [])]])])
             4 0) =
    PrintFollowing (VStr "X") (VObj [("customer_id", VStr "C1")]) 1
    :: CallTool (VStr "X") [("customer_id", VStr "C1")]
    :: rest.
Proof.
  refine (proj1 (customer_id_is_injected sample_tools
            [("customer_id", VStr "C1");
             ("next_steps",
              VArr [VObj [("tool", VStr "X"); ("params", VObj [])]])]
            4 0 [] []
            (VObj [("tool", VStr "X"); ("params", VObj [])])
            "X" [] (fun _ => Ret (VObj []))
            _ _ _ _ _ _) (VStr "C1") _ _);
    try reflexivity.
  eexists. repeat split; discriminate.
Defined.
